(** * Vision API demo (app.py): crop normalisation and result rendering

    A shallow embedding of the Streamlit script [app.py].  The script is
    one top-to-bottom run: it loads credentials, draws the page, and, when
    the user presses the detection button, converts the cropped bitmap,
    sends it to the object-localisation service and renders the answer.

    The embedding keeps that shape.  Library calls whose result depends on
    the outside (secrets, JSON parser, image decoder, JPEG encoder, the
    remote service, the widgets' user input) are fields of a [World]; what
    the script shows and which outside calls it makes are recorded, in
    order, in a trace of [event]s; Python exceptions are an explicit
    [Raise] result. *)

From Stdlib Require Import ZArith String Ascii DecimalString DecimalN Lia.
From Stdlib Require Import Floats.SpecFloat.
From stdpp Require Import base option list gmap strings.

Open Scope Z_scope.

(** * Python values *)

(** ** Exceptions *)

(** The exception classes the script can meet.  [KeyboardInterrupt],
    [SystemExit] and Streamlit's script-control exceptions derive from
    [BaseException] only: [except Exception] lets them through, a bare
    [except:] catches them. *)
Inductive exn_class : Type :=
| KeyError
| IndexError
| AttributeError
| TypeError
| ValueError
| OSError
| JSONDecodeError
| UnidentifiedImageError
| GoogleAPIError
| OtherException (name : string)
| KeyboardInterrupt
| SystemExit
| ScriptControlException.

(** An exception object: its class and [str(e)]. *)
Record exn : Type := Exc { exn_class_of : exn_class; exn_str : string }.

Definition is_Exception (e : exn) : bool :=
  match exn_class_of e with
  | KeyboardInterrupt | SystemExit | ScriptControlException => false
  | _ => true
  end.

Inductive result (A : Type) : Type :=
| Ok (a : A)
| Raise (e : exn).
Arguments Ok {A} a.
Arguments Raise {A} e.

Definition result_bind {A B} (r : result A) (k : A -> result B) : result B :=
  match r with
  | Ok a => k a
  | Raise e => Raise e
  end.

Declare Scope result_scope.
Delimit Scope result_scope with result.
Notation "x <- r ;; k" := (result_bind r (fun x => k))
  (at level 100, r at next level, k at level 200, right associativity) : result_scope.

(** ** Floats

    A Python float is an IEEE binary64 number: [spec_float] with 53 bits
    of precision and [emax = 1024]. *)
Definition float : Type := spec_float.

Definition float_mul : float -> float -> float := SFmul 53 1024.

Definition float_of_pos (p : positive) : float := binary_round 53 1024 false p 0.

Definition is_finite (x : float) : bool :=
  match x with
  | S754_zero _ | S754_finite _ _ _ => true
  | _ => false
  end.

(** Decimal digits of a non-negative integer, and one digit as a character. *)
Definition dec (n : Z) : string := NilZero.string_of_uint (N.to_uint (Z.to_N n)).

Definition digit (d : Z) : ascii := ascii_of_N (Z.to_N (48 + d)).

(** [n / d] rounded to the nearest integer, ties to even ([0 < d]). *)
Definition round_half_even (n d : Z) : Z :=
  let q := n / d in
  let r := n mod d in
  match 2 * r ?= d with
  | Lt => q
  | Gt => q + 1
  | Eq => if Z.even q then q else q + 1
  end.

(** The exact value [m * 2^e], in hundredths, correctly rounded: this is
    what the ['f'] presentation type with precision 2 prints. *)
Definition scaled_hundredths (m : positive) (e : Z) : Z :=
  if 0 <=? e then Z.pos m * 100 * 2 ^ e
  else round_half_even (Z.pos m * 100) (2 ^ (- e)).

Definition sign_str (s : bool) : string := if s then "-" else "".

Definition fixed2 (n : Z) : string :=
  dec (n / 100) ++ "." ++ String (digit (n / 10 mod 10)) (String (digit (n mod 10)) "").

(** [format(x, ".2f")] *)
Definition format_2f (x : float) : string :=
  match x with
  | S754_nan => "nan"
  | S754_infinity s => sign_str s ++ "inf"
  | S754_zero s => sign_str s ++ fixed2 0
  | S754_finite s m e => sign_str s ++ fixed2 (scaled_hundredths m e)
  end.

(** [format(x, ".2%")]: the value is multiplied by 100 as a float, printed
    with ['f'] and followed by a percent sign. *)
Definition format_2pct (x : float) : string :=
  format_2f (float_mul x (float_of_pos 100)) ++ "%".

(** ** Dynamically typed values

    The response of the service is read by attribute access and indexing;
    the values it can hold are modelled by [pyval]. *)
#[local] Set Warnings "-register-all".
Inductive pyval : Type :=
| PyNone
| PyFloat (x : float)
| PyStr (s : string)
| PyList (items : list pyval)
| PyObj (attrs : list (string * pyval)).

Fixpoint assoc {A} (k : string) (l : list (string * A)) : option A :=
  match l with
  | [] => None
  | (k', v) :: l' => if String.eqb k k' then Some v else assoc k l'
  end.

(** [v.a] *)
Definition getattr (v : pyval) (a : string) : result pyval :=
  match v with
  | PyObj attrs =>
      match assoc a attrs with
      | Some x => Ok x
      | None => Raise (Exc AttributeError a)
      end
  | _ => Raise (Exc AttributeError a)
  end.

(** [v[i]] for a non-negative literal index. *)
Definition getitem (v : pyval) (i : nat) : result pyval :=
  match v with
  | PyList items =>
      match items !! i with
      | Some x => Ok x
      | None => Raise (Exc IndexError "list index out of range")
      end
  | PyStr s =>
      match String.get i s with
      | Some c => Ok (PyStr (String c ""))
      | None => Raise (Exc IndexError "string index out of range")
      end
  | _ => Raise (Exc TypeError "object is not subscriptable")
  end.

(** [format(v, ".2f")] *)
Definition format_spec_2f (v : pyval) : result string :=
  match v with
  | PyFloat x => Ok (format_2f x)
  | PyStr _ => Raise (Exc ValueError "Unknown format code 'f' for object of type 'str'")
  | _ => Raise (Exc TypeError "unsupported format string passed to __format__")
  end.

(** * Bitmaps (PIL) *)

(** An image: its mode, its size (width, height), one list of band values
    per pixel in row-major order, and the [info] dictionary. *)
Record Image : Type := {
  mode : string;
  size : nat * nat;
  pixels : list (list Z);
  info : gmap string Z
}.

Definition bands_table : list (string * list string) :=
  [ ("1", ["1"]); ("L", ["L"]); ("I", ["I"]); ("F", ["F"]); ("P", ["P"]);
    ("RGB", ["R"; "G"; "B"]); ("RGBX", ["R"; "G"; "B"; "X"]);
    ("RGBA", ["R"; "G"; "B"; "A"]); ("CMYK", ["C"; "M"; "Y"; "K"]);
    ("YCbCr", ["Y"; "Cb"; "Cr"]); ("LAB", ["L"; "A"; "B"]);
    ("HSV", ["H"; "S"; "V"]); ("RGBa", ["R"; "G"; "B"; "a"]);
    ("LA", ["L"; "A"]); ("La", ["L"; "a"]); ("PA", ["P"; "A"]) ]%string.

Definition getbands (m : string) : list string := default [] (assoc m bands_table).

(** The modes whose last band is an alpha channel. *)
Definition has_alpha_channel (m : string) : bool :=
  existsb (String.eqb m) ["LA"; "La"; "PA"; "RGBA"; "RGBa"]%string.

(** [im.has_transparency_data]: an alpha band, or a transparency entry. *)
Definition has_transparency_data (im : Image) : bool :=
  has_alpha_channel (mode im) || bool_decide (is_Some (info im !! "transparency"%string)).

(** [Image.new(mode, size, color)] *)
Definition Image_new (m : string) (sz : nat * nat) (color : list Z) : Image :=
  {| mode := m; size := sz;
     pixels := replicate (fst sz * snd sz)%nat color;
     info := ∅ |}.

(** Band [k] of an image, as an "L" image. *)
Definition getband (im : Image) (k : nat) : Image :=
  {| mode := "L"; size := size im;
     pixels := map (fun p => [default 0 (p !! k)]) (pixels im);
     info := ∅ |}.

(** [im.split()] *)
Definition split (im : Image) : list Image :=
  map (getband im) (seq 0 (length (getbands (mode im)))).

(** [t[i]] on a tuple *)
Definition tuple_getitem {A} (t : list A) (i : nat) : result A :=
  match t !! i with
  | Some x => Ok x
  | None => Raise (Exc IndexError "tuple index out of range")
  end.

Definition DIV255 (a : Z) : Z :=
  let tmp := a + 128 in
  Z.shiftr (Z.shiftr tmp 8 + tmp) 8.

(** Pillow's 8-bit blend of [in1] (kept where the mask is 0) and [in2]
    (taken where the mask is 255). *)
Definition BLEND8 (mask in1 in2 : Z) : Z :=
  DIV255 (in1 * (255 - mask) + in2 * mask).

Definition paste_pixel (out inp msk : list Z) : list Z :=
  zip_with (BLEND8 (default 0 (msk !! 0%nat))) out inp.

Definition paste_pixels (outs ins masks : list (list Z)) : list (list Z) :=
  zip_with (fun oi m => paste_pixel (fst oi) (snd oi) m) (zip outs ins) masks.

(** [self.paste(im, mask=mask)] with an "L" mask and no box: the pasted
    image and the mask must have the size of [self]; every band of every
    pixel is blended through the mask.  Python updates [self] in place;
    here the updated image is the result. *)
Definition paste (self im mask : Image) : result Image :=
  if bool_decide (size im = size self /\ size mask = size self) then
    Ok {| mode := mode self; size := size self;
          pixels := paste_pixels (pixels self) (pixels im) (pixels mask);
          info := info self |}
  else Raise (Exc ValueError "images do not match").

Definition white : list Z := [255; 255; 255].

(** Lines 87-93: the image handed to the JPEG encoder. *)
Definition final_img (cropped_img : Image) : result Image :=
  if String.eqb (mode cropped_img) "RGBA" then
    let background := Image_new "RGB" (size cropped_img) white in
    (alpha <- tuple_getitem (split cropped_img) 3 ;;
     paste background cropped_img alpha)%result
  else Ok cropped_img.

(** * The page: trace, session state and the script monad *)

Definition bytes : Type := list Byte.byte.

(** What a run shows on the page and which outside calls it makes, in
    program order. *)
Inductive event : Type :=
| Error (body : string)
| ExceptionBox (e : exn)
| SetPageConfig (page_title page_icon layout : string)
| Title (body : string)
| SidebarHeader (body : string)
| Selectbox (label : string) (options : list string)
| FileUploader (label : string) (types : list string)
| Columns (spec : list Z)
| Subheader (body : string)
| Cropper (img : Image) (aspect_ratio : option (Z * Z))
| Text (body : string)
| ShowImage (img : Image) (caption : string)
| Markdown (body : string)
| Button (label : string)
| Info (body : string)
| Success (body : string)
| Write (body : string)
| Caption (body : string)
| Warning (body : string)
| SaveCall (img : Image) (format : string)
| ObjectLocalizationCall (content : bytes).

(** [st.session_state] and the trace so far. *)
Record State : Type := {
  session_state : gmap string bool;
  trace : list event
}.

Definition M (A : Type) : Type := State -> result A * State.

Definition ret {A} (a : A) : M A := fun s => (Ok a, s).

Definition bind {A B} (m : M A) (k : A -> M B) : M B :=
  fun s =>
    match m s with
    | (Ok a, s') => k a s'
    | (Raise e, s') => (Raise e, s')
    end.

Declare Scope script_scope.
Delimit Scope script_scope with script.
Notation "x <- m ;; k" := (bind m (fun x => k))
  (at level 100, m at next level, k at level 200, right associativity) : script_scope.
Notation "m ;; k" := (bind m (fun _ => k))
  (at level 100, k at level 200, right associativity) : script_scope.
Open Scope script_scope.

Definition lift {A} (r : result A) : M A := fun s => (r, s).

(** The state after showing the events [es]. *)
Definition push (s : State) (es : list event) : State :=
  {| session_state := session_state s; trace := trace s ++ es |}.

Definition emit (e : event) : M unit := fun s => (Ok tt, push s [e]).

(** [try: body / except Exception as e: handler e] *)
Definition try_except_Exception {A} (body : M A) (handler : exn -> M A) : M A :=
  fun s =>
    match body s with
    | (Ok a, s') => (Ok a, s')
    | (Raise e, s') => if is_Exception e then handler e s' else (Raise e, s')
    end.

(** [try: body / except: handler] *)
Definition try_except {A} (body : M A) (handler : M A) : M A :=
  fun s =>
    match body s with
    | (Ok a, s') => (Ok a, s')
    | (Raise _, s') => handler s'
    end.

(** [for x in xs: body x] *)
Fixpoint for_each {A} (xs : list A) (body : A -> M unit) : M unit :=
  match xs with
  | [] => ret tt
  | x :: xs' => body x ;; for_each xs' body
  end.

(** [st.session_state[k] = v] and [st.session_state.get(k, d)] *)
Definition session_set (k : string) (v : bool) : M unit :=
  fun s => (Ok tt, {| session_state := <[k := v]> (session_state s); trace := trace s |}).

Definition session_get (k : string) (d : bool) : M bool :=
  fun s => (Ok (default d (session_state s !! k)), s).

(** [repr] of a string.  The text is put between single quotes, or
    between double quotes when it holds a single quote and no double
    quote; the backslash, the chosen quote, tab, line feed, carriage
    return and the other ASCII control characters are escaped.  Bytes
    above 127 are parts of UTF-8 sequences and are kept, as [repr] keeps
    the printable characters outside ASCII. *)
Definition double_quote : ascii := ascii_of_nat 34.
Definition single_quote : ascii := ascii_of_nat 39.
Definition backslash : ascii := ascii_of_nat 92.

Fixpoint contains (c : ascii) (t : string) : bool :=
  match t with
  | EmptyString => false
  | String c' t' => Ascii.eqb c c' || contains c t'
  end.

Definition hex_digit (n : nat) : ascii :=
  if (n <? 10)%nat then ascii_of_nat (48 + n) else ascii_of_nat (87 + n).

Definition repr_char (quote c : ascii) : string :=
  let n := nat_of_ascii c in
  if Ascii.eqb c backslash then String backslash (String backslash "")
  else if Ascii.eqb c quote then String backslash (String quote "")
  else if (n =? 9)%nat then String backslash "t"
  else if (n =? 10)%nat then String backslash "n"
  else if (n =? 13)%nat then String backslash "r"
  else if (n <? 32)%nat || (n =? 127)%nat then
    String backslash
      (String "x" (String (hex_digit (n / 16)) (String (hex_digit (n mod 16)) "")))
  else String c "".

Fixpoint repr_body (quote : ascii) (t : string) : string :=
  match t with
  | EmptyString => EmptyString
  | String c t' => repr_char quote c ++ repr_body quote t'
  end.

Definition py_repr (t : string) : string :=
  let quote :=
    if contains single_quote t && negb (contains double_quote t)
    then double_quote else single_quote in
  String quote (repr_body quote t ++ String quote "").

(** [d[k]] on a dictionary; the text of the [KeyError] is [repr(k)]. *)
Definition dict_getitem {A} (d : gmap string A) (k : string) : result A :=
  match d !! k with
  | Some v => Ok v
  | None => Raise (Exc KeyError (py_repr k))
  end.

(** * The remote service's data *)

Inductive Client : Type := ImageAnnotatorClient (info : pyval).

(** One localized object annotation: name and score are typed fields of
    the message; the bounding polygon is read dynamically, under the
    script's catch-all handler. *)
Record LocalizedObject : Type := {
  name : string;
  score : float;
  bounding_poly : pyval
}.

Record Response : Type := {
  error_message : string;
  localized_object_annotations : list LocalizedObject
}.

(** * The outside world of one run *)

(** [secrets w k] is [st.secrets[k]]: the secret, or the exception that
    Streamlit raises when it has none under that key. *)
Record World : Type := {
  secrets : string -> result string;
  json_loads : string -> result pyval;
  from_service_account_info : pyval -> result Client;
  selectbox : string -> list string -> string;
  file_uploader : option bytes;
  Image_open : bytes -> result Image;
  st_cropper : Image -> option (Z * Z) -> Image;
  button : string -> bool;
  save : Image -> string -> result bytes;
  object_localization : Client -> bytes -> result Response
}.

(** * The script *)

(** Truth value of a string and of a list. *)
Definition str_bool (s : string) : bool := negb (String.eqb s "").

Definition list_bool {A} (l : list A) : bool :=
  match l with
  | [] => false
  | _ => true
  end.

(** Lines 18-20: the credential string from the secrets, parsed, turned
    into a client. *)
Definition service_account_client (w : World) : result Client :=
  (creds_json <- secrets w "GOOGLE_APPLICATION_CREDENTIALS" ;;
   creds_dict <- json_loads w creds_json ;;
   from_service_account_info w creds_dict)%result.

(** Lines 16-26; the value is the variable [client]. *)
Definition load_credentials (w : World) : M (option Client) :=
  try_except_Exception
    (client <- lift (service_account_client w) ;;
     session_set "client_ready" true ;;
     ret (Some client))
    (fun e =>
     emit (Error "❌ Could not load Google Vision API credentials from Streamlit Secrets.") ;;
     emit (ExceptionBox e) ;;
     session_set "client_ready" false ;;
     ret None).

Definition aspect_options : list string := ["Free"; "1:1"; "16:9"; "4:3"]%string.

Definition aspect_dict : gmap string (option (Z * Z)) :=
  list_to_map
    [ ("Free", None); ("1:1", Some (1, 1)); ("16:9", Some (16, 9));
      ("4:3", Some (4, 3)) ]%string.

(** [f"{v[i].a:.2f}"] *)
Definition vertex_field (v : pyval) (i : nat) (a : string) : result string :=
  (vi <- getitem v i ;;
   c <- getattr vi a ;;
   format_spec_2f c)%result.

(** Lines 122-123: the caption text, or the exception raised on the way. *)
Definition box_text (poly : pyval) : result string :=
  (v <- getattr poly "normalized_vertices" ;;
   x0 <- vertex_field v 0 "x" ;;
   y0 <- vertex_field v 0 "y" ;;
   x2 <- vertex_field v 2 "x" ;;
   y2 <- vertex_field v 2 "y" ;;
   Ok ("Box: (" ++ x0 ++ ", " ++ y0 ++ ") to (" ++ x2 ++ ", " ++ y2 ++ ")")%string)%result.

Definition score_line (obj : LocalizedObject) : string :=
  "- **" ++ name obj ++ "** (Score: " ++ format_2pct (score obj) ++ ")".

Definition fallback_caption : string := "Bounding box data unavailable.".

(** Lines 120-125 as a value: the caption that ends up on the page. *)
Definition caption_text (obj : LocalizedObject) : string :=
  match box_text (bounding_poly obj) with
  | Ok text => text
  | Raise _ => fallback_caption
  end.

(** Lines 117-125: the body of the loop over the detected objects. *)
Definition render_entry (obj : LocalizedObject) : M unit :=
  emit (Write (score_line obj)) ;;
  try_except
    (text <- lift (box_text (bounding_poly obj)) ;;
     emit (Caption text))
    (emit (Caption fallback_caption)).

(** Lines 106-127: what is shown for a response. *)
Definition render (response : Response) : M unit :=
  let localized_objects := localized_object_annotations response in
  if str_bool (error_message response) then
    emit (Error ("API Error: " ++ error_message response))
  else
    emit (Success "✅ Object Localization Complete") ;;
    emit (Markdown "### 🔍 Detected Objects:") ;;
    if list_bool localized_objects then
      for_each localized_objects render_entry
    else
      emit (Info "No specific objects were localized in the selected region.").

(** Line 103: [client.object_localization(image=...)]; [client] is [None]
    when the credentials could not be loaded. *)
Definition call_object_localization (w : World) (client : option Client)
    (content : bytes) : M Response :=
  match client with
  | Some c =>
      emit (ObjectLocalizationCall content) ;;
      lift (object_localization w c content)
  | None => lift (Raise (Exc AttributeError "object_localization"))
  end.

(** Lines 84-127: the body of the detection button. *)
Definition run_detection (w : World) (client : option Client)
    (cropped_img : Image) : M unit :=
  emit (Info "Running Object Localization on cropped image...") ;;
  final <- lift (final_img cropped_img) ;;
  emit (SaveCall final "JPEG") ;;
  content <- lift (save w final "JPEG") ;;
  response <- call_object_localization w client content ;;
  render response.

Definition detect_label : string := "🚀 Run Detection (Object Localization)".

Definition warning_text : string :=
  "Cannot run detection: Vision API client failed to initialize.".

(** Lines 56-129: the cropper column and the result column. *)
Definition crop_and_detect (w : World) (client : option Client)
    (image : Image) (aspect_ratio : option (Z * Z)) : M unit :=
  emit (Columns [2; 1]) ;;
  emit (Subheader "✂️ Select Area on Image") ;;
  emit (Cropper image aspect_ratio) ;;
  let cropped_img := st_cropper w image aspect_ratio in
  emit (Text "") ;;
  emit (Subheader "✅ Cropped Result & Action") ;;
  emit (ShowImage cropped_img "Selected Region") ;;
  emit (Markdown "<br>") ;;
  ready <- session_get "client_ready" false ;;
  if ready then
    emit (Button detect_label) ;;
    if button w detect_label then run_detection w client cropped_img
    else ret tt
  else emit (Warning warning_text).

(** The whole script, one run. *)
Definition app (w : World) : M unit :=
  client <- load_credentials w ;;
  emit (SetPageConfig "Vision API Demo" "🧠" "wide") ;;
  emit (Title "Vision API Demo - Object Detection Tool") ;;
  emit (SidebarHeader "⚙️ Options") ;;
  emit (Selectbox "Aspect Ratio" aspect_options) ;;
  let aspect_ratio_option := selectbox w "Aspect Ratio" aspect_options in
  aspect_ratio <- lift (dict_getitem aspect_dict aspect_ratio_option) ;;
  emit (FileUploader "📤 Upload an image" ["jpg"; "jpeg"; "png"]%string) ;;
  match file_uploader w with
  | Some uploaded_file =>
      image <- try_except_Exception
                 (image <- lift (Image_open w uploaded_file) ;; ret (Some image))
                 (fun e =>
                  emit (Error ("Error reading image file: " ++ exn_str e)) ;;
                  ret None) ;;
      match image with
      | Some image => crop_and_detect w client image aspect_ratio
      | None => ret tt
      end
  | None => emit (Info "👆 Upload an image to begin.")
  end.

(** A run starts on an empty page, with the session state of the
    previous run. *)
Definition start (session : gmap string bool) : State :=
  {| session_state := session; trace := [] |}.

(** * Reading a trace *)

(** The bitmaps handed to the encoder, the buffers sent to the service and
    the buttons drawn, in order. *)
Definition saved_images (t : list event) : list Image :=
  omap (fun e => match e with SaveCall im _ => Some im | _ => None end) t.

Definition remote_calls (t : list event) : list bytes :=
  omap (fun e => match e with ObjectLocalizationCall c => Some c | _ => None end) t.

Definition buttons (t : list event) : list string :=
  omap (fun e => match e with Button l => Some l | _ => None end) t.

(** * Well-formed bitmaps *)

Definition wf_pixel (n : nat) (p : list Z) : Prop :=
  length p = n /\ Forall (fun v => 0 <= v <= 255) p.

Definition wf_image (im : Image) : Prop :=
  length (pixels im) = (fst (size im) * snd (size im))%nat /\
  Forall (wf_pixel (length (getbands (mode im)))) (pixels im).

Definition non_empty (im : Image) : Prop :=
  (0 < fst (size im))%nat /\ (0 < snd (size im))%nat.

(** The pixels of an RGBA bitmap blended over white through their alpha. *)
Definition over_white (p : list Z) : list Z :=
  zip_with (BLEND8 (default 0 (p !! 3%nat))) white p.

(** * Typed view of a bounding polygon *)

(** A normalized vertex and a bounding polygon as the service sends them:
    objects with float fields [x], [y] and a list [normalized_vertices]. *)
Definition vertex (xy : float * float) : pyval :=
  PyObj [("x", PyFloat (fst xy)); ("y", PyFloat (snd xy))]%string.

Definition poly_of (vs : list (float * float)) : pyval :=
  PyObj [("normalized_vertices", PyList (map vertex vs))]%string.

(** The caption for the diagonal corners [v0] and [v2]. *)
Definition corner_caption (v0 v2 : float * float) : string :=
  "Box: (" ++ format_2f (fst v0) ++ ", " ++ format_2f (snd v0) ++ ") to ("
  ++ format_2f (fst v2) ++ ", " ++ format_2f (snd v2) ++ ")".

(** What one pass of the loop body puts on the page. *)
Definition entry_events (obj : LocalizedObject) : list event :=
  [Write (score_line obj); Caption (caption_text obj)].

Definition results_header : list event :=
  [Success "✅ Object Localization Complete"; Markdown "### 🔍 Detected Objects:"].

(** Text that ends in a point and exactly two digits, after an optional
    sign and a non-empty run of digits. *)
Definition is_digit (c : ascii) : bool :=
  (48 <=? nat_of_ascii c)%nat && (nat_of_ascii c <=? 57)%nat.

Definition all_digits (t : string) : bool := forallb is_digit (list_ascii_of_string t).

Definition two_decimals (t : string) : Prop :=
  exists sg ip d1 d2,
    t = (sign_str sg ++ ip ++ "." ++ String d1 (String d2 ""))%string /\
    ip <> ""%string /\ all_digits ip = true /\
    is_digit d1 = true /\ is_digit d2 = true.

(** * Sample data *)

(** The binary32 values nearest to 0.8734, 0.1, 0.2, 0.9 and 0.8, as the
    service's float fields hold them. *)
Definition f_0_8734 : float := S754_finite false 7866887585136640 (-53).
Definition f_0_1 : float := S754_finite false 7205759511166976 (-56).
Definition f_0_2 : float := S754_finite false 7205759511166976 (-55).
Definition f_0_9 : float := S754_finite false 8106479114518528 (-53).
Definition f_0_8 : float := S754_finite false 7205759511166976 (-53).

Definition cat : LocalizedObject :=
  {| name := "Cat"; score := f_0_8734;
     bounding_poly :=
       poly_of [(f_0_1, f_0_2); (f_0_9, f_0_2); (f_0_9, f_0_8); (f_0_1, f_0_8)] |}.

Definition cat_response : Response :=
  {| error_message := ""; localized_object_annotations := [cat] |}.

Definition quota_response : Response :=
  {| error_message := "quota exceeded"; localized_object_annotations := [cat] |}.

Definition empty_response : Response :=
  {| error_message := ""; localized_object_annotations := [] |}.

(** An entry whose polygon has two vertices. *)
Definition short_cat : LocalizedObject :=
  {| name := "Cat"; score := f_0_8734;
     bounding_poly := poly_of [(f_0_1, f_0_2); (f_0_9, f_0_8)] |}.

(** The two ways a polygon can fail to give a caption: the vertex list
    cannot be read at all, or it holds fewer than three vertices. *)
Definition polygon_missing (poly : pyval) : Prop :=
  exists e, getattr poly "normalized_vertices" = Raise e.

Definition fewer_than_three_vertices (poly : pyval) : Prop :=
  exists items,
    getattr poly "normalized_vertices" = Ok (PyList items) /\ (length items < 3)%nat.

(** An entry without a polygon. *)
Definition bare_cat : LocalizedObject :=
  {| name := "Cat"; score := f_0_8734; bounding_poly := PyNone |}.

(** Sample bitmaps: a 2x1 RGBA bitmap with one transparent and one opaque
    pixel, a 1x1 "LA" bitmap whose pixel is transparent black, a palette
    bitmap with a transparency entry, and a plain RGB bitmap. *)
Definition rgba_sample : Image :=
  {| mode := "RGBA"; size := (2, 1)%nat;
     pixels := [[10; 20; 30; 0]; [10; 20; 30; 255]]; info := ∅ |}.

Definition la_sample : Image :=
  {| mode := "LA"; size := (1, 1)%nat; pixels := [[0; 0]]; info := ∅ |}.

Definition p_sample : Image :=
  {| mode := "P"; size := (1, 1)%nat; pixels := [[0]];
     info := {[ "transparency"%string := 0 ]} |}.

Definition rgb_sample : Image :=
  {| mode := "RGB"; size := (1, 1)%nat; pixels := [[10; 20; 30]]; info := ∅ |}.

(** Worlds for the examples: one where nothing is uploaded and every
    outside call succeeds, and one with an upload whose credential secret
    is the malformed JSON text of a lone opening brace; the exception is
    the one [json.loads] raises for it. *)
Definition quiet_world : World :=
  {| secrets := fun _ => Ok "{}"%string;
     json_loads := fun _ => Ok (PyObj []);
     from_service_account_info := fun v => Ok (ImageAnnotatorClient v);
     selectbox := fun _ _ => "Free"%string;
     file_uploader := None;
     Image_open := fun _ => Ok rgb_sample;
     st_cropper := fun im _ => im;
     button := fun _ => false;
     save := fun _ _ => Ok [];
     object_localization := fun _ _ => Ok empty_response |}.

Definition malformed_json : exn :=
  Exc JSONDecodeError
      "Expecting property name enclosed in double quotes: line 1 column 2 (char 1)".

Definition malformed_secret_world : World :=
  {| secrets := fun _ => Ok "{"%string;
     json_loads := fun _ => Raise malformed_json;
     from_service_account_info := fun v => Ok (ImageAnnotatorClient v);
     selectbox := fun _ _ => "Free"%string;
     file_uploader := Some [];
     Image_open := fun _ => Ok rgb_sample;
     st_cropper := fun im _ => im;
     button := fun _ => true;
     save := fun _ _ => Ok [];
     object_localization := fun _ _ => Ok cat_response |}.

(** What the page shows after the credential block failed with [e]: the
    two error elements, the page chrome, and then the upload hint, the
    decoding error, or the two columns ending in the warning. *)
Definition credentials_error : string :=
  "❌ Could not load Google Vision API credentials from Streamlit Secrets.".

Definition page_chrome : list event :=
  [SetPageConfig "Vision API Demo" "🧠" "wide";
   Title "Vision API Demo - Object Detection Tool";
   SidebarHeader "⚙️ Options";
   Selectbox "Aspect Ratio" aspect_options;
   FileUploader "📤 Upload an image" ["jpg"; "jpeg"; "png"]%string].

Definition crop_columns_without_client (w : World) (image : Image)
    (aspect_ratio : option (Z * Z)) : list event :=
  [Columns [2; 1];
   Subheader "✂️ Select Area on Image";
   Cropper image aspect_ratio;
   Text "";
   Subheader "✅ Cropped Result & Action";
   ShowImage (st_cropper w image aspect_ratio) "Selected Region";
   Markdown "<br>";
   Warning "Cannot run detection: Vision API client failed to initialize."].

(** What lines 108-127 put on the page for a response. *)
Definition render_events (response : Response) : list event :=
  if str_bool (error_message response) then
    [Error ("API Error: " ++ error_message response)]
  else
    results_header ++
    (if list_bool (localized_object_annotations response) then
       flat_map entry_events (localized_object_annotations response)
     else [Info "No specific objects were localized in the selected region."]).

(** The two columns when the client is ready: they end with the
    detection button. *)
Definition crop_columns_with_button (w : World) (image : Image)
    (aspect_ratio : option (Z * Z)) : list event :=
  [Columns [2; 1];
   Subheader "✂️ Select Area on Image";
   Cropper image aspect_ratio;
   Text "";
   Subheader "✅ Cropped Result & Action";
   ShowImage (st_cropper w image aspect_ratio) "Selected Region";
   Markdown "<br>";
   Button "🚀 Run Detection (Object Localization)"].

Definition running_info : event :=
  Info "Running Object Localization on cropped image...".

Definition upload_hint : event := Info "👆 Upload an image to begin.".

(** The state of a run whose session holds [ready] under "client_ready"
    and whose page shows [t]. *)
Definition page_state (session : gmap string bool) (ready : bool) (t : list event) : State :=
  {| session_state := <["client_ready"%string := ready]> session; trace := t |}.

(** A world with the credential secret and an uploaded RGBA image, in
    which the user chose "16:9"; the button, the encoder and the service
    are parameters. *)
Definition detect_world (pressed : bool) (encoded : result bytes)
    (answer : result Response) : World :=
  {| secrets := fun _ => Ok "{}"%string;
     json_loads := fun _ => Ok (PyObj []);
     from_service_account_info := fun v => Ok (ImageAnnotatorClient v);
     selectbox := fun _ _ => "16:9"%string;
     file_uploader := Some [];
     Image_open := fun _ => Ok rgba_sample;
     st_cropper := fun im _ => im;
     button := fun _ => pressed;
     save := fun _ _ => encoded;
     object_localization := fun _ _ => answer |}.

(** The same world with an upload that cannot be decoded. *)
Definition broken_upload_world (e : exn) : World :=
  {| secrets := fun _ => Ok "{}"%string;
     json_loads := fun _ => Ok (PyObj []);
     from_service_account_info := fun v => Ok (ImageAnnotatorClient v);
     selectbox := fun _ _ => "16:9"%string;
     file_uploader := Some [];
     Image_open := fun _ => Raise e;
     st_cropper := fun im _ => im;
     button := fun _ => true;
     save := fun _ _ => Ok [];
     object_localization := fun _ _ => Ok cat_response |}.

Definition sample_client : Client := ImageAnnotatorClient (PyObj []).

Definition rgba_sample_final : Image :=
  {| mode := "RGB"; size := (2, 1)%nat;
     pixels := [[255; 255; 255]; [10; 20; 30]]; info := ∅ |}.

(** Responses with a short polygon: alone, and after a full one. *)
Definition short_response : Response :=
  {| error_message := ""; localized_object_annotations := [short_cat] |}.

Definition mixed_response : Response :=
  {| error_message := ""; localized_object_annotations := [cat; short_cat] |}.

(** A 1x1 RGBA bitmap whose pixel is fully opaque. *)
Definition opaque_rgba_sample : Image :=
  {| mode := "RGBA"; size := (1, 1)%nat; pixels := [[10; 20; 30; 255]]; info := ∅ |}.

(** * Reading a printed number

    The decimal number a text denotes, in hundredths: an optional minus
    sign, a run of digits, a point and exactly two digits. *)
Fixpoint split_at_point (t : string) : option (string * string) :=
  match t with
  | EmptyString => None
  | String c t' =>
      if Ascii.eqb c "." then Some (EmptyString, t')
      else match split_at_point t' with
           | Some (before, after) => Some (String c before, after)
           | None => None
           end
  end.

Definition number_of_digits (t : string) : option Z :=
  match NilZero.uint_of_string t with
  | Some u => Some (Z.of_N (N.of_uint u))
  | None => None
  end.

Definition strip_minus (t : string) : bool * string :=
  match t with
  | String c rest => if Ascii.eqb c "-" then (true, rest) else (false, t)
  | EmptyString => (false, t)
  end.

Definition hundredths_of_text (t : string) : option Z :=
  let '(negative, body) := strip_minus t in
  match split_at_point body with
  | Some (ip, fp) =>
      if (String.length fp =? 2)%nat then
        match number_of_digits ip, number_of_digits fp with
        | Some a, Some b => Some (if negative then - (100 * a + b) else 100 * a + b)
        | _, _ => None
        end
      else None
  | None => None
  end.

(** * Properties of the bitmap operations *)

Lemma DIV255_scaled (x : Z) : 0 <= x <= 255 -> DIV255 (x * 255) = x.
Proof.
  intros Hx.
  assert (Hall : forallb (fun n => DIV255 (Z.of_nat n * 255) =? Z.of_nat n)
                   (seq 0 256) = true) by (vm_compute; reflexivity).
  rewrite forallb_forall in Hall.
  specialize (Hall (Z.to_nat x)).
  rewrite Z2Nat.id in Hall by lia.
  apply Z.eqb_eq, Hall, in_seq. lia.
Qed.

Lemma BLEND8_mask_0 (out inp : Z) : 0 <= out <= 255 -> BLEND8 0 out inp = out.
Proof.
  intros Hout. unfold BLEND8.
  replace (out * (255 - 0) + inp * 0) with (out * 255) by lia.
  now apply DIV255_scaled.
Qed.

Lemma BLEND8_mask_255 (out inp : Z) : 0 <= inp <= 255 -> BLEND8 255 out inp = inp.
Proof.
  intros Hin. unfold BLEND8.
  replace (out * (255 - 255) + inp * 255) with (inp * 255) by lia.
  now apply DIV255_scaled.
Qed.

Lemma over_white_transparent (r g b : Z) : over_white [r; g; b; 0] = white.
Proof.
  unfold over_white, white. cbn [lookup zip_with default].
  simpl. rewrite !BLEND8_mask_0 by lia. reflexivity.
Qed.

Lemma over_white_opaque (r g b : Z) :
  0 <= r <= 255 -> 0 <= g <= 255 -> 0 <= b <= 255 ->
  over_white [r; g; b; 255] = [r; g; b].
Proof.
  intros Hr Hg Hb. unfold over_white, white. simpl.
  rewrite !BLEND8_mask_255 by lia. reflexivity.
Qed.

Lemma paste_pixels_over_white (ps : list (list Z)) (n : nat) :
  length ps = n ->
  paste_pixels (replicate n white) ps (map (fun p => [default 0 (p !! 3%nat)]) ps)
  = map over_white ps.
Proof.
  intros <-. unfold paste_pixels.
  induction ps as [|p ps IH]; simpl; [reflexivity|].
  f_equal. apply IH.
Qed.

(** On an RGBA bitmap the branch of line 87 is taken and never raises. *)
Lemma final_img_RGBA (b : Image) :
  mode b = "RGBA"%string ->
  final_img b =
    Ok {| mode := "RGB"; size := size b;
          pixels := paste_pixels (replicate (fst (size b) * snd (size b))%nat white)
                      (pixels b)
                      (map (fun p => [default 0 (p !! 3%nat)]) (pixels b));
          info := ∅ |}.
Proof.
  intros Hm. unfold final_img, split. rewrite Hm. simpl.
  unfold paste. simpl. rewrite bool_decide_eq_true_2 by (split; reflexivity).
  reflexivity.
Qed.

Lemma final_img_other (b : Image) :
  mode b <> "RGBA"%string -> final_img b = Ok b.
Proof.
  intros Hm. unfold final_img.
  apply String.eqb_neq in Hm. rewrite Hm. reflexivity.
Qed.

(** * Properties of the script monad *)

Lemma push_push (s : State) (es1 es2 : list event) :
  push (push s es1) es2 = push s (es1 ++ es2).
Proof. unfold push. simpl. now rewrite app_assoc. Qed.

Lemma push_nil (s : State) : push s [] = s.
Proof. destruct s. unfold push. simpl. now rewrite app_nil_r. Qed.

(** * Properties of the renderer *)

Lemma render_entry_run (obj : LocalizedObject) (s : State) :
  render_entry obj s = (Ok tt, push s (entry_events obj)).
Proof.
  unfold render_entry, entry_events, caption_text, try_except, bind, emit, lift.
  destruct (box_text (bounding_poly obj)) as [text|e]; now rewrite push_push.
Qed.

Lemma for_each_render_entry (objs : list LocalizedObject) (s : State) :
  for_each objs render_entry s = (Ok tt, push s (flat_map entry_events objs)).
Proof.
  revert s. induction objs as [|obj objs IH]; intros s; simpl.
  - unfold ret. now rewrite push_nil.
  - unfold bind. rewrite render_entry_run, IH. now rewrite push_push.
Qed.

Lemma render_ok (r : Response) (s : State) :
  error_message r = ""%string ->
  render r s =
    (Ok tt,
     push s (results_header ++
             match localized_object_annotations r with
             | [] => [Info "No specific objects were localized in the selected region."]
             | objs => flat_map entry_events objs
             end)).
Proof.
  intros He. unfold render. rewrite He. simpl.
  unfold bind, emit. rewrite !push_push.
  destruct (localized_object_annotations r) as [|obj objs] eqn:Hobjs; cbn [list_bool].
  - now rewrite push_push.
  - rewrite for_each_render_entry. now rewrite push_push.
Qed.

Lemma box_text_poly_of (v0 v1 v2 : float * float) (rest : list (float * float)) :
  box_text (poly_of (v0 :: v1 :: v2 :: rest)) = Ok (corner_caption v0 v2).
Proof. reflexivity. Qed.

Lemma box_text_short (poly : pyval) (items : list pyval) :
  getattr poly "normalized_vertices" = Ok (PyList items) ->
  (length items < 3)%nat ->
  exists e, box_text poly = Raise e.
Proof.
  intros Hv Hlen. unfold box_text. rewrite Hv. simpl.
  destruct items as [|i0 [|i1 [|i2 items]]]; simpl in Hlen; try lia.
  - eexists. reflexivity.
  - unfold vertex_field at 1. simpl.
    destruct (getattr i0 "x") as [c|e]; simpl; [|eauto].
    destruct (format_spec_2f c) as [t|e]; simpl; [|eauto].
    unfold vertex_field at 1. simpl.
    destruct (getattr i0 "y") as [c'|e]; simpl; [|eauto].
    destruct (format_spec_2f c') as [t'|e]; simpl; [|eauto].
    eexists. reflexivity.
  - unfold vertex_field at 1. simpl.
    destruct (getattr i0 "x") as [c|e]; simpl; [|eauto].
    destruct (format_spec_2f c) as [t|e]; simpl; [|eauto].
    unfold vertex_field at 1. simpl.
    destruct (getattr i0 "y") as [c'|e]; simpl; [|eauto].
    destruct (format_spec_2f c') as [t'|e]; simpl; [|eauto].
    eexists. reflexivity.
Qed.

Lemma box_text_missing (poly : pyval) (e : exn) :
  getattr poly "normalized_vertices" = Raise e -> box_text poly = Raise e.
Proof. intros Hv. unfold box_text. now rewrite Hv. Qed.

Lemma render_entry_fallback (obj : LocalizedObject) (e : exn) (s : State) :
  box_text (bounding_poly obj) = Raise e ->
  render_entry obj s = (Ok tt, push s [Write (score_line obj); Caption fallback_caption]).
Proof.
  intros Hb. rewrite render_entry_run. unfold entry_events, caption_text.
  now rewrite Hb.
Qed.

(** * Properties of the number formatting *)

Lemma string_of_uint_digits (u : Decimal.uint) :
  all_digits (NilEmpty.string_of_uint u) = true.
Proof. induction u; simpl; auto. Qed.

Lemma dec_digits (n : Z) : dec n <> ""%string /\ all_digits (dec n) = true.
Proof.
  unfold dec, NilZero.string_of_uint.
  destruct (N.to_uint (Z.to_N n)) as [|u|u|u|u|u|u|u|u|u|u] eqn:Hu;
    (split; [discriminate | try reflexivity]);
    rewrite <- Hu at 1; apply string_of_uint_digits.
Qed.

Lemma digit_is_digit (d : Z) : 0 <= d < 10 -> is_digit (digit d) = true.
Proof.
  intros Hd.
  assert (Hcases : d = 0 \/ d = 1 \/ d = 2 \/ d = 3 \/ d = 4 \/ d = 5 \/ d = 6 \/
                   d = 7 \/ d = 8 \/ d = 9) by lia.
  repeat (destruct Hcases as [-> | Hcases]; [reflexivity|]).
  subst d. reflexivity.
Qed.

Lemma fixed2_two_decimals (sg : bool) (n : Z) : two_decimals (sign_str sg ++ fixed2 n).
Proof.
  exists sg, (dec (n / 100)), (digit (n / 10 mod 10)), (digit (n mod 10)).
  destruct (dec_digits (n / 100)) as [Hne Hall].
  repeat split; auto; apply digit_is_digit; apply Z.mod_pos_bound; lia.
Qed.

Lemma format_2f_two_decimals (x : float) :
  is_finite x = true -> two_decimals (format_2f x).
Proof.
  destruct x as [sg|sg| |sg m e]; simpl; try discriminate; intros _;
    apply fixed2_two_decimals.
Qed.

(** * Worked examples *)

(** The fallback also covers a malformed vertex: here the third vertex
    has no [y]. *)
Example render_entry_malformed_vertex :
  render_entry
    {| name := "Cat"; score := f_0_8734;
       bounding_poly :=
         PyObj [("normalized_vertices",
                 PyList [vertex (f_0_1, f_0_2); vertex (f_0_9, f_0_2);
                         PyObj [("x", PyFloat f_0_9)]])]%string |}
    (start ∅) =
  (Ok tt, push (start ∅) [Write "- **Cat** (Score: 87.34%)";
                          Caption "Bounding box data unavailable."]).
Proof. vm_compute. reflexivity. Qed.

Example render_entry_no_polygon :
  render_entry bare_cat (start ∅) =
  (Ok tt, push (start ∅) [Write "- **Cat** (Score: 87.34%)";
                          Caption "Bounding box data unavailable."]).
Proof. vm_compute. reflexivity. Qed.

(** Ties are rounded to even, signs and non-finite values are kept. *)
Example format_2f_samples :
  format_2f (S754_finite false 1 (-3)) = "0.12"%string /\
  format_2f (S754_finite false 3 (-3)) = "0.38"%string /\
  format_2f (S754_zero true) = "-0.00"%string /\
  format_2f (S754_infinity false) = "inf"%string /\
  format_2pct S754_nan = "nan%"%string /\
  format_2pct (S754_finite false 1 0) = "100.00%"%string.
Proof. repeat split; vm_compute; reflexivity. Qed.

(** A fully transparent 10x10 RGBA bitmap becomes a white 10x10 RGB
    bitmap. *)
Example final_img_transparent_10x10 :
  final_img {| mode := "RGBA"; size := (10, 10)%nat;
               pixels := replicate 100 [0; 0; 0; 0]; info := ∅ |} =
  Ok {| mode := "RGB"; size := (10, 10)%nat;
        pixels := replicate 100 [255; 255; 255]; info := ∅ |}.
Proof. rewrite final_img_RGBA by reflexivity. vm_compute. reflexivity. Qed.

(** An exception outside [Exception] is not caught by the credential
    block: it ends the run before anything is shown. *)
Example load_credentials_interrupt :
  load_credentials
    {| secrets := fun _ => Ok "{}"%string;
       json_loads := fun _ => Raise (Exc KeyboardInterrupt "");
       from_service_account_info := fun v => Ok (ImageAnnotatorClient v);
       selectbox := fun _ _ => "Free"%string;
       file_uploader := None;
       Image_open := fun _ => Ok rgb_sample;
       st_cropper := fun im _ => im;
       button := fun _ => false;
       save := fun _ _ => Ok [];
       object_localization := fun _ _ => Ok empty_response |}
    (start ∅) =
  (Raise (Exc KeyboardInterrupt ""), start ∅).
Proof. vm_compute. reflexivity. Qed.

(** Malformed JSON in the secret is caught and shown. *)
Example load_credentials_malformed_json :
  load_credentials
    {| secrets := fun _ => Ok "{"%string;
       json_loads := fun _ => Raise malformed_json;
       from_service_account_info := fun v => Ok (ImageAnnotatorClient v);
       selectbox := fun _ _ => "Free"%string;
       file_uploader := None;
       Image_open := fun _ => Ok rgb_sample;
       st_cropper := fun im _ => im;
       button := fun _ => false;
       save := fun _ _ => Ok [];
       object_localization := fun _ _ => Ok empty_response |}
    (start ∅) =
  (Ok None,
   {| session_state := {[ "client_ready"%string := false ]};
      trace := [Error credentials_error; ExceptionBox malformed_json] |}).
Proof. vm_compute. reflexivity. Qed.

(** [repr] of a key, as the text of a [KeyError] shows it. *)
Example py_repr_samples :
  py_repr "2:1" = "'2:1'"%string /\
  py_repr "it's" = String double_quote ("it's" ++ String double_quote "")%string /\
  py_repr (String (ascii_of_nat 9) "a\b") = "'\ta\\b'"%string /\
  py_repr (String (ascii_of_nat 0) (String (ascii_of_nat 127) "")) = "'\x00\x7f'"%string /\
  dict_getitem aspect_dict "2:1" = Raise (Exc KeyError "'2:1'").
Proof. repeat split; vm_compute; reflexivity. Qed.

(** * The renderer's contract *)

(** C2, as the code has it: when the response carries a non-empty error
    message, the renderer shows one error element whose text is that
    message after the prefix "API Error: ", and nothing else, whatever
    the entries are. *)
Theorem render_error_only (r : Response) (s : State) :
  error_message r <> ""%string ->
  render r s = (Ok tt, push s [Error ("API Error: " ++ error_message r)]).
Proof.
  intros He. unfold render, str_bool.
  apply String.eqb_neq in He. rewrite He. reflexivity.
Qed.

Lemma render_error_only_witness :
  error_message quota_response <> ""%string /\
  render quota_response (start ∅) =
    (Ok tt, push (start ∅) [Error "API Error: quota exceeded"]).
Proof.
  split; [discriminate|].
  apply (render_error_only quota_response (start ∅)). discriminate.
Defined.

(** C2, as stated, fails: for the error "quota exceeded" the text shown
    is not exactly that message. *)
Lemma render_error_text_differs :
  error_message quota_response = "quota exceeded"%string /\
  trace (snd (render quota_response (start ∅))) = [Error "API Error: quota exceeded"] /\
  trace (snd (render quota_response (start ∅))) <> [Error (error_message quota_response)].
Proof.
  split; [reflexivity|]. split; [reflexivity|]. discriminate.
Qed.

(** C5: with an empty error message and no entries the renderer shows the
    results header and the informational message that no objects were
    localized; no entry line and no caption is shown. *)
Theorem render_no_objects (r : Response) (s : State) :
  error_message r = ""%string ->
  localized_object_annotations r = [] ->
  render r s =
    (Ok tt,
     push s [Success "✅ Object Localization Complete";
             Markdown "### 🔍 Detected Objects:";
             Info "No specific objects were localized in the selected region."]).
Proof.
  intros He Hobjs. rewrite render_ok by exact He. now rewrite Hobjs.
Qed.

Lemma render_no_objects_witness :
  error_message empty_response = ""%string /\
  localized_object_annotations empty_response = [] /\
  trace (snd (render empty_response (start ∅))) =
    [Success "✅ Object Localization Complete";
     Markdown "### 🔍 Detected Objects:";
     Info "No specific objects were localized in the selected region."].
Proof.
  split; [reflexivity|]. split; [reflexivity|].
  rewrite (render_no_objects empty_response (start ∅) eq_refl eq_refl).
  reflexivity.
Defined.

(** C3, as the code has it: with an empty error message and a non-empty
    list of entries, the renderer ends normally and shows, after the
    success banner and the header, one line and one caption per entry, in
    the order of the response.  The line holds the name and the score
    printed as a percentage with two digits after the point.  For an
    entry whose polygon has at least three vertices the caption holds the
    first and the third vertex, each coordinate printed with two digits
    after the point; for an entry whose polygon is missing or has fewer
    than three vertices the caption is the fallback. *)
Theorem render_entries (r : Response) (s : State) :
  error_message r = ""%string ->
  localized_object_annotations r <> [] ->
  render r s =
    (Ok tt,
     push s ([Success "✅ Object Localization Complete";
              Markdown "### 🔍 Detected Objects:"] ++
             flat_map (fun obj =>
                         [Write ("- **" ++ name obj ++ "** (Score: "
                                 ++ format_2pct (score obj) ++ ")");
                          Caption (caption_text obj)])
                      (localized_object_annotations r))) /\
  Forall (fun obj =>
            (forall vs, bounding_poly obj = poly_of vs -> (3 <= length vs)%nat ->
               exists v0 v2,
                 vs !! 0%nat = Some v0 /\ vs !! 2%nat = Some v2 /\
                 caption_text obj =
                   ("Box: (" ++ format_2f (fst v0) ++ ", " ++ format_2f (snd v0)
                    ++ ") to (" ++ format_2f (fst v2) ++ ", " ++ format_2f (snd v2)
                    ++ ")")%string /\
                 (is_finite (fst v0) = true -> two_decimals (format_2f (fst v0))) /\
                 (is_finite (snd v0) = true -> two_decimals (format_2f (snd v0))) /\
                 (is_finite (fst v2) = true -> two_decimals (format_2f (fst v2))) /\
                 (is_finite (snd v2) = true -> two_decimals (format_2f (snd v2)))) /\
            (polygon_missing (bounding_poly obj) \/
             fewer_than_three_vertices (bounding_poly obj) ->
             caption_text obj = "Bounding box data unavailable."%string) /\
            (is_finite (float_mul (score obj) (float_of_pos 100)) = true ->
             exists t, format_2pct (score obj) = (t ++ "%")%string /\ two_decimals t))
         (localized_object_annotations r).
Proof.
  intros He Hne. split.
  - rewrite render_ok by exact He.
    destruct (localized_object_annotations r); [congruence | reflexivity].
  - apply Forall_forall. intros obj _. split; [|split].
    + intros vs Hvs Hlen.
      destruct vs as [|v0 [|v1 [|v2 rest]]]; simpl in Hlen; try lia.
      exists v0, v2. split; [reflexivity|]. split; [reflexivity|].
      split; [unfold caption_text; rewrite Hvs, box_text_poly_of; reflexivity|].
      repeat split; apply format_2f_two_decimals.
    + intros [[e Hm] | (items & Hv & Hlen)]; unfold caption_text.
      * now rewrite (box_text_missing _ e Hm).
      * destruct (box_text_short _ _ Hv Hlen) as [e Hb]. now rewrite Hb.
    + intros Hfin. eexists. split; [reflexivity|].
      now apply format_2f_two_decimals.
Qed.

Lemma render_entries_witness :
  error_message mixed_response = ""%string /\
  localized_object_annotations mixed_response <> [] /\
  trace (snd (render mixed_response (start ∅))) =
    [Success "✅ Object Localization Complete";
     Markdown "### 🔍 Detected Objects:";
     Write "- **Cat** (Score: 87.34%)";
     Caption "Box: (0.10, 0.20) to (0.90, 0.80)";
     Write "- **Cat** (Score: 87.34%)";
     Caption "Bounding box data unavailable."].
Proof.
  split; [reflexivity|]. split; [discriminate|].
  destruct (render_entries mixed_response (start ∅) eq_refl
              (fun H => match H in _ = l return match l with [] => False | _ => True end
                        with eq_refl => I end)) as [Hrun _].
  rewrite Hrun. vm_compute. reflexivity.
Defined.

(** C3, as stated, fails: the one entry of this response has a polygon of
    two vertices, and its caption is the fallback, not a caption of a
    first and a third vertex. *)
Lemma render_entries_short_polygon :
  error_message short_response = ""%string /\
  localized_object_annotations short_response = [short_cat] /\
  bounding_poly short_cat = poly_of [(f_0_1, f_0_2); (f_0_9, f_0_8)] /\
  trace (snd (render short_response (start ∅))) =
    [Success "✅ Object Localization Complete";
     Markdown "### 🔍 Detected Objects:";
     Write "- **Cat** (Score: 87.34%)";
     Caption "Bounding box data unavailable."] /\
  forall v0 v2,
    ~ In (Caption (corner_caption v0 v2)) (trace (snd (render short_response (start ∅)))).
Proof.
  split; [reflexivity|]. split; [reflexivity|]. split; [reflexivity|].
  assert (Htrace : trace (snd (render short_response (start ∅))) =
    [Success "✅ Object Localization Complete";
     Markdown "### 🔍 Detected Objects:";
     Write "- **Cat** (Score: 87.34%)";
     Caption "Bounding box data unavailable."]) by (vm_compute; reflexivity).
  split; [exact Htrace|].
  intros v0 v2 Hin. rewrite Htrace in Hin. simpl in Hin.
  destruct Hin as [H|[H|[H|[H|[]]]]]; discriminate.
Qed.

(** C4: for an entry whose bounding polygon is missing or has fewer than
    three vertices, the renderer shows the name and score line, then the
    fallback caption, and raises no exception. *)
Theorem render_entry_without_box (obj : LocalizedObject) (s : State) :
  polygon_missing (bounding_poly obj) \/ fewer_than_three_vertices (bounding_poly obj) ->
  render_entry obj s =
    (Ok tt,
     push s [Write ("- **" ++ name obj ++ "** (Score: " ++ format_2pct (score obj) ++ ")");
             Caption "Bounding box data unavailable."]).
Proof.
  intros [[e He] | (items & Hv & Hlen)].
  - apply (render_entry_fallback obj e). now apply box_text_missing.
  - destruct (box_text_short _ _ Hv Hlen) as [e He].
    now apply (render_entry_fallback obj e).
Qed.

Lemma render_entry_without_box_witness :
  (polygon_missing (bounding_poly short_cat) \/
   fewer_than_three_vertices (bounding_poly short_cat)) /\
  render_entry short_cat (start ∅) =
    (Ok tt,
     push (start ∅) [Write "- **Cat** (Score: 87.34%)";
                     Caption "Bounding box data unavailable."]).
Proof.
  assert (H : polygon_missing (bounding_poly short_cat) \/
              fewer_than_three_vertices (bounding_poly short_cat)).
  { right. eexists. split; [reflexivity|]. simpl. lia. }
  split; [exact H|].
  rewrite (render_entry_without_box short_cat (start ∅) H).
  vm_compute. reflexivity.
Defined.

(** C10: rendering an entry never raises.  The line is followed by exactly
    one caption; whenever reading or formatting the polygon raises, that
    caption is the fallback; a polygon of exactly three vertices gives the
    vertex caption; and the loop over any list of entries ends normally
    with two elements shown per entry. *)
Theorem render_entry_total (obj : LocalizedObject) (objs : list LocalizedObject) (s : State) :
  render_entry obj s = (Ok tt, push s [Write (score_line obj); Caption (caption_text obj)]) /\
  (forall e, box_text (bounding_poly obj) = Raise e -> caption_text obj = fallback_caption) /\
  (forall text, box_text (bounding_poly obj) = Ok text -> caption_text obj = text) /\
  (forall v0 v1 v2, bounding_poly obj = poly_of [v0; v1; v2] ->
                    caption_text obj = corner_caption v0 v2) /\
  for_each objs render_entry s = (Ok tt, push s (flat_map entry_events objs)) /\
  length (flat_map entry_events objs) = (2 * length objs)%nat.
Proof.
  split; [apply render_entry_run|].
  split; [intros e He; unfold caption_text; now rewrite He|].
  split; [intros text He; unfold caption_text; now rewrite He|].
  split; [intros v0 v1 v2 Hp; unfold caption_text; now rewrite Hp, box_text_poly_of|].
  split; [apply for_each_render_entry|].
  induction objs as [|o objs IH]; simpl; [reflexivity|]. rewrite IH. lia.
Qed.

(** * Properties of the detection run *)

Lemma saved_images_app (t1 t2 : list event) :
  saved_images (t1 ++ t2) = saved_images t1 ++ saved_images t2.
Proof. apply omap_app. Qed.

Lemma saved_images_entries (objs : list LocalizedObject) :
  saved_images (flat_map entry_events objs) = [].
Proof. induction objs as [|o objs IH]; simpl; auto. Qed.

(** The renderer only appends display elements. *)
Lemma render_saves_nothing (r : Response) (s : State) :
  saved_images (trace (snd (render r s))) = saved_images (trace s).
Proof.
  destruct (String.eqb_spec (error_message r) "") as [He|He].
  - rewrite render_ok by exact He. cbn [snd trace push].
    rewrite !saved_images_app.
    change (saved_images results_header) with (@nil Image).
    destruct (localized_object_annotations r) as [|o objs]; cbv iota.
    + now rewrite app_nil_r.
    + rewrite (saved_images_entries (o :: objs)). now rewrite app_nil_r.
  - unfold render, str_bool. apply String.eqb_neq in He. rewrite He.
    cbn [negb snd trace push emit]. rewrite saved_images_app.
    now rewrite app_nil_r.
Qed.

(** The one bitmap a detection run hands to the encoder is [final_img]. *)
Lemma run_detection_saves (w : World) (client : option Client) (b out : Image) (s : State) :
  final_img b = Ok out ->
  saved_images (trace (snd (run_detection w client b s))) = saved_images (trace s) ++ [out].
Proof.
  intros Hf. unfold run_detection, bind, emit, lift. rewrite Hf.
  destruct (save w out "JPEG") as [content|e]; simpl.
  - unfold call_object_localization, bind, emit, lift.
    destruct client as [c|]; simpl.
    + destruct (object_localization w c content) as [resp|e]; simpl.
      * rewrite render_saves_nothing. simpl.
        rewrite !saved_images_app. simpl. now rewrite !app_nil_r.
      * rewrite !saved_images_app. simpl. now rewrite !app_nil_r.
    + rewrite !saved_images_app. simpl. now rewrite app_nil_r.
  - rewrite !saved_images_app. simpl. now rewrite app_nil_r.
Qed.

Lemma DIV255_range (a : Z) : 0 <= a <= 65025 -> 0 <= DIV255 a <= 255.
Proof.
  intros Ha. unfold DIV255. rewrite !Z.shiftr_div_pow2 by lia.
  change (2 ^ 8) with 256.
  assert (H1 : 0 <= (a + 128) / 256 < 255).
  { split; [apply Z.div_pos; lia|]. apply Z.div_lt_upper_bound; lia. }
  split; [apply Z.div_pos; lia|].
  apply Z.lt_succ_r. apply Z.div_lt_upper_bound; lia.
Qed.

Lemma BLEND8_range (a out inp : Z) :
  0 <= a <= 255 -> 0 <= out <= 255 -> 0 <= inp <= 255 -> 0 <= BLEND8 a out inp <= 255.
Proof.
  intros Ha Ho Hi. unfold BLEND8. apply DIV255_range. nia.
Qed.

Lemma over_white_wf (p : list Z) : wf_pixel 4 p -> wf_pixel 3 (over_white p).
Proof.
  intros [Hlen Hall].
  destruct p as [|r [|g [|b [|a [|x p]]]]]; simpl in Hlen; try lia.
  inversion Hall as [|? ? Hr Hall1]; subst.
  inversion Hall1 as [|? ? Hg Hall2]; subst.
  inversion Hall2 as [|? ? Hb Hall3]; subst.
  inversion Hall3 as [|? ? Haa _]; subst.
  split; [reflexivity|].
  unfold over_white, white. simpl.
  repeat constructor; apply BLEND8_range; lia.
Qed.

Lemma has_alpha_not_RGBA (m : string) : has_alpha_channel m = false -> m <> "RGBA"%string.
Proof. intros Ha ->. discriminate. Qed.

(** * The crop normalisation's contract *)

(** C1, as the code has it: a well-formed bitmap whose mode is exactly
    "RGBA" is pasted onto a white "RGB" background of the same size
    through its alpha band.  The result has no alpha channel, holds for
    every pixel the blend of white and the pixel's colour by the pixel's
    alpha, is white wherever the input was fully transparent, and is the
    bitmap handed to the encoder. *)
Theorem final_img_RGBA_on_white (b : Image) (w : World) (client : option Client) (s : State) :
  mode b = "RGBA"%string ->
  wf_image b ->
  exists out,
    final_img b = Ok out /\
    paste (Image_new "RGB" (size b) white) b (getband b 3) = Ok out /\
    out = {| mode := "RGB"; size := size b; pixels := map over_white (pixels b); info := ∅ |} /\
    has_alpha_channel (mode out) = false /\
    wf_image out /\
    (forall i r g bl, pixels b !! i = Some [r; g; bl; 0] -> pixels out !! i = Some white) /\
    saved_images (trace (snd (run_detection w client b s))) = saved_images (trace s) ++ [out].
Proof.
  intros Hm [Hlen Hpix].
  pose proof (final_img_RGBA b Hm) as Hf.
  rewrite paste_pixels_over_white in Hf by exact Hlen.
  eexists. split; [exact Hf|].
  split.
  { unfold paste. simpl. rewrite bool_decide_eq_true_2 by (split; reflexivity).
    simpl. now rewrite paste_pixels_over_white by exact Hlen. }
  split; [reflexivity|]. split; [reflexivity|]. split.
  { split; simpl.
    - now rewrite length_map.
    - rewrite Hm in Hpix. change (length (getbands "RGBA")) with 4%nat in Hpix.
      change (length (getbands "RGB")) with 3%nat.
      rewrite Forall_map. eapply Forall_impl; [exact Hpix|].
      intros p Hp. now apply over_white_wf. }
  split.
  { intros i r g bl Hi. simpl. rewrite list_lookup_fmap, Hi. simpl.
    now rewrite over_white_transparent. }
  now apply run_detection_saves.
Qed.

Lemma final_img_RGBA_on_white_witness :
  mode rgba_sample = "RGBA"%string /\
  wf_image rgba_sample /\
  final_img rgba_sample =
    Ok {| mode := "RGB"; size := (2, 1)%nat;
          pixels := [[255; 255; 255]; [10; 20; 30]]; info := ∅ |}.
Proof.
  assert (Hwf : wf_image rgba_sample).
  { split; [reflexivity|]. repeat constructor; simpl; lia. }
  split; [reflexivity|]. split; [exact Hwf|].
  destruct (final_img_RGBA_on_white rgba_sample
              quiet_world
              None (start ∅) eq_refl Hwf) as (out & Hf & _ & Hout & _).
  rewrite Hf, Hout. reflexivity.
Defined.

(** C1, as stated, fails: the "LA" bitmap has an alpha channel and a fully
    transparent pixel, yet it reaches the encoder as it is, alpha band
    included and the pixel not white. *)
Lemma final_img_LA_not_composited :
  has_alpha_channel (mode la_sample) = true /\
  non_empty la_sample /\
  wf_image la_sample /\
  pixels la_sample !! 0%nat = Some [0; 0] /\
  forall out, final_img la_sample = Ok out ->
    has_alpha_channel (mode out) = true /\ pixels out !! 0%nat = Some [0; 0].
Proof.
  split; [reflexivity|]. split; [split; simpl; lia|].
  split; [split; [reflexivity | repeat constructor; simpl; lia]|].
  split; [reflexivity|].
  intros out Hout. unfold final_img in Hout. simpl in Hout.
  injection Hout as <-. split; reflexivity.
Qed.

(** C6: a bitmap whose mode has no alpha channel is handed to the encoder
    unchanged. *)
Theorem final_img_no_alpha (b : Image) (w : World) (client : option Client) (s : State) :
  has_alpha_channel (mode b) = false ->
  final_img b = Ok b /\
  saved_images (trace (snd (run_detection w client b s))) = saved_images (trace s) ++ [b].
Proof.
  intros Ha. apply has_alpha_not_RGBA in Ha.
  pose proof (final_img_other b Ha) as Hf.
  split; [exact Hf|]. now apply run_detection_saves.
Qed.

Lemma final_img_no_alpha_witness :
  has_alpha_channel (mode rgb_sample) = false /\
  final_img rgb_sample = Ok rgb_sample.
Proof.
  split; [reflexivity|].
  apply (final_img_no_alpha rgb_sample
           quiet_world
           None (start ∅) eq_refl).
Defined.

(** C8, as the code has it: the normalisation always yields a bitmap, and
    normalising that bitmap again gives it back unchanged.  A bitmap whose
    mode is not "RGBA" is returned as it is, whether it is opaque or not.
    On an "RGBA" bitmap whose pixels are all fully opaque the first pass
    drops the alpha band and keeps the colours as they are. *)
Theorem final_img_idempotent (b : Image) :
  exists out,
    final_img b = Ok out /\
    final_img out = Ok out /\
    (mode b <> "RGBA"%string -> out = b) /\
    (mode b = "RGBA"%string -> wf_image b ->
     Forall (fun p => p !! 3%nat = Some 255) (pixels b) ->
     pixels out = map (take 3) (pixels b)).
Proof.
  destruct (String.eqb_spec (mode b) "RGBA") as [Hm|Hm].
  - eexists. split; [apply final_img_RGBA, Hm|].
    split; [apply final_img_other; simpl; discriminate|].
    split; [congruence|].
    intros _ [Hlen Hpix] Hopaque. simpl.
    rewrite paste_pixels_over_white by exact Hlen.
    rewrite Hm in Hpix. change (length (getbands "RGBA")) with 4%nat in Hpix.
    clear Hlen. induction Hpix as [|p ps Hp Hps IH]; [reflexivity|].
    inversion Hopaque as [|? ? Ha Hrest]; subst. simpl.
    rewrite (IH Hrest). f_equal.
    destruct Hp as [Hlen Hrange].
    destruct p as [|r [|g [|bl [|a [|x p]]]]]; simpl in Hlen; try lia.
    injection Ha as ->.
    inversion Hrange as [|? ? Hr H1]; subst.
    inversion H1 as [|? ? Hg H2]; subst.
    inversion H2 as [|? ? Hb _]; subst.
    now apply over_white_opaque.
  - exists b. split; [now apply final_img_other|].
    split; [now apply final_img_other|].
    split; [reflexivity | congruence].
Qed.

(** C8, as stated, fails in both of its side remarks: the output for the
    "LA" bitmap is not opaque (it keeps the alpha band and the transparent
    pixel), and the normalisation of an "RGBA" bitmap that is already
    fully opaque is not that bitmap (the mode and the bands change). *)
Lemma final_img_opaque_remarks_fail :
  (final_img la_sample = Ok la_sample /\
   has_alpha_channel (mode la_sample) = true /\
   pixels la_sample !! 0%nat = Some [0; 0]) /\
  (Forall (fun p => p !! 3%nat = Some 255) (pixels opaque_rgba_sample) /\
   final_img opaque_rgba_sample =
     Ok {| mode := "RGB"; size := (1, 1)%nat; pixels := [[10; 20; 30]]; info := ∅ |} /\
   final_img opaque_rgba_sample <> Ok opaque_rgba_sample).
Proof.
  split.
  - repeat split; reflexivity.
  - assert (Hf : final_img opaque_rgba_sample =
                 Ok {| mode := "RGB"; size := (1, 1)%nat; pixels := [[10; 20; 30]]; info := ∅ |})
      by (rewrite final_img_RGBA by reflexivity; vm_compute; reflexivity).
    split; [repeat constructor|]. split; [exact Hf|].
    rewrite Hf. intros H. injection H as Hmode _. discriminate.
Qed.

(** C9: the bitmap reaches the encoder unchanged exactly when its mode is
    not the string "RGBA"; in mode "RGBA" it is the paste onto white.  So
    a bitmap of another mode that carries transparency ("LA", or "P" with
    a transparency entry) is handed to the encoder as it is. *)
Theorem composite_only_RGBA (b : Image) (w : World) (client : option Client) (s : State) :
  (final_img b = Ok b <-> mode b <> "RGBA"%string) /\
  (mode b = "RGBA"%string ->
   final_img b = paste (Image_new "RGB" (size b) white) b (getband b 3)) /\
  (mode b <> "RGBA"%string ->
   saved_images (trace (snd (run_detection w client b s))) = saved_images (trace s) ++ [b]).
Proof.
  split; [split|split].
  - intros Hf Hm. rewrite (final_img_RGBA b Hm) in Hf.
    injection Hf as Hf. rewrite <- Hf in Hm. discriminate.
  - apply final_img_other.
  - intros Hm. unfold final_img, split. rewrite Hm. reflexivity.
  - intros Hm. apply run_detection_saves. now apply final_img_other.
Qed.

Lemma composite_only_RGBA_witness :
  (has_transparency_data la_sample = true /\ final_img la_sample = Ok la_sample) /\
  (has_transparency_data p_sample = true /\ final_img p_sample = Ok p_sample).
Proof.
  split; (split; [reflexivity|]).
  - apply (composite_only_RGBA la_sample
           quiet_world
           None (start ∅)). discriminate.
  - apply (composite_only_RGBA p_sample
           quiet_world
           None (start ∅)). discriminate.
Defined.

(** * Properties of the credential block and of the whole run *)

Lemma service_account_client_absent (w : World) (e : exn) :
  secrets w "GOOGLE_APPLICATION_CREDENTIALS" = Raise e ->
  service_account_client w = Raise e.
Proof.
  intros Hs. unfold service_account_client. now rewrite Hs.
Qed.

Lemma service_account_client_malformed (w : World) (creds_json : string) (e : exn) :
  secrets w "GOOGLE_APPLICATION_CREDENTIALS" = Ok creds_json ->
  json_loads w creds_json = Raise e ->
  service_account_client w = Raise e.
Proof.
  intros Hs Hj. unfold service_account_client. rewrite Hs. simpl.
  now rewrite Hj.
Qed.

Lemma aspect_dict_total (o : string) :
  o ∈ aspect_options -> exists a, dict_getitem aspect_dict o = Ok a.
Proof.
  intros Ho. apply list_elem_of_In in Ho. simpl in Ho.
  destruct Ho as [<-|[<-|[<-|[<-|[]]]]]; eexists; vm_compute; reflexivity.
Qed.

Section WithoutClient.

Variable w : World.
Variable e : exn.
Hypothesis credentials_fail : service_account_client w = Raise e.
Hypothesis caught : is_Exception e = true.

Lemma load_credentials_failure (s : State) :
  load_credentials w s =
    (Ok None,
     {| session_state := <["client_ready"%string := false]> (session_state s);
        trace := trace s ++ [Error credentials_error; ExceptionBox e] |}).
Proof.
  unfold load_credentials, try_except_Exception, bind, lift.
  rewrite credentials_fail, caught.
  unfold emit, session_set, ret, push. cbn [session_state trace].
  now rewrite <- app_assoc.
Qed.

(** The whole run after a failed credential block. *)
Lemma app_without_client (session : gmap string bool) (aspect_ratio : option (Z * Z)) :
  dict_getitem aspect_dict (selectbox w "Aspect Ratio" aspect_options) = Ok aspect_ratio ->
  (forall f e', file_uploader w = Some f -> Image_open w f = Raise e' ->
                is_Exception e' = true) ->
  app w (start session) =
    (Ok tt,
     {| session_state := <["client_ready"%string := false]> session;
        trace :=
          [Error credentials_error; ExceptionBox e] ++ page_chrome ++
          match file_uploader w with
          | None => [Info "👆 Upload an image to begin."]
          | Some f =>
              match Image_open w f with
              | Ok image => crop_columns_without_client w image aspect_ratio
              | Raise e' => [Error ("Error reading image file: " ++ exn_str e')]
              end
          end |}).
Proof.
  intros Ha Hopen.
  unfold app, bind. rewrite load_credentials_failure.
  unfold emit, lift. rewrite Ha.
  destruct (file_uploader w) as [f|] eqn:Hf.
  - unfold try_except_Exception, bind, lift.
    destruct (Image_open w f) as [image|e'] eqn:Hi.
    + unfold ret, crop_and_detect, bind, emit, session_get.
      cbn [push session_state trace start].
      rewrite lookup_insert_eq. reflexivity.
    + rewrite (Hopen f e' eq_refl Hi). reflexivity.
  - reflexivity.
Qed.

End WithoutClient.

(** * The credential gate *)

(** C7: when the credential block fails with an exception (the secret is
    absent, the JSON is malformed, the client cannot be built), the run
    ends normally: the failure is shown as an error, [client_ready] is
    false, no detection button is drawn, no bitmap is encoded and the
    service is never called; an uploaded image is still decoded, offered
    in the cropper and previewed, with the warning in place of the
    button. *)
Theorem credential_failure_disables_detection
    (w : World) (session : gmap string bool) (e : exn) :
  service_account_client w = Raise e ->
  is_Exception e = true ->
  selectbox w "Aspect Ratio" aspect_options ∈ aspect_options ->
  (forall f e', file_uploader w = Some f -> Image_open w f = Raise e' ->
                is_Exception e' = true) ->
  exists s',
    app w (start session) = (Ok tt, s') /\
    session_state s' !! "client_ready"%string = Some false /\
    (exists rest,
       trace s' =
         Error "❌ Could not load Google Vision API credentials from Streamlit Secrets."
         :: ExceptionBox e :: rest) /\
    buttons (trace s') = [] /\
    saved_images (trace s') = [] /\
    remote_calls (trace s') = [] /\
    (forall f image,
       file_uploader w = Some f -> Image_open w f = Ok image ->
       exists aspect_ratio rest,
         trace s' =
           rest ++
           [Columns [2; 1];
            Subheader "✂️ Select Area on Image";
            Cropper image aspect_ratio;
            Text "";
            Subheader "✅ Cropped Result & Action";
            ShowImage (st_cropper w image aspect_ratio) "Selected Region";
            Markdown "<br>";
            Warning "Cannot run detection: Vision API client failed to initialize."]).
Proof.
  intros Hc He Hsel Hopen.
  destruct (aspect_dict_total _ Hsel) as [a Ha].
  eexists. split; [apply (app_without_client w e Hc He session a Ha Hopen)|].
  cbn [session_state trace].
  split; [apply lookup_insert_eq|].
  split; [eexists; reflexivity|].
  split; [|split; [|split]].
  - destruct (file_uploader w) as [f|]; [|reflexivity].
    destruct (Image_open w f); reflexivity.
  - destruct (file_uploader w) as [f|]; [|reflexivity].
    destruct (Image_open w f); reflexivity.
  - destruct (file_uploader w) as [f|]; [|reflexivity].
    destruct (Image_open w f); reflexivity.
  - intros f image Hf Hi. rewrite Hf, Hi.
    exists a, ([Error credentials_error; ExceptionBox e] ++ page_chrome).
    reflexivity.
Qed.

Lemma credential_failure_disables_detection_witness :
  service_account_client malformed_secret_world = Raise malformed_json /\
  is_Exception malformed_json = true /\
  selectbox malformed_secret_world "Aspect Ratio" aspect_options ∈ aspect_options /\
  (forall f e', file_uploader malformed_secret_world = Some f ->
                Image_open malformed_secret_world f = Raise e' -> is_Exception e' = true) /\
  exists s',
    app malformed_secret_world (start ∅) = (Ok tt, s') /\
    buttons (trace s') = [] /\ remote_calls (trace s') = [].
Proof.
  assert (Hc : service_account_client malformed_secret_world = Raise malformed_json)
    by (apply (service_account_client_malformed _ "{"); reflexivity).
  assert (Hsel : selectbox malformed_secret_world "Aspect Ratio" aspect_options ∈ aspect_options)
    by (apply list_elem_of_In; simpl; left; reflexivity).
  assert (Hopen : forall f e', file_uploader malformed_secret_world = Some f ->
                    Image_open malformed_secret_world f = Raise e' -> is_Exception e' = true)
    by (intros f e' _ Hi; simpl in Hi; discriminate Hi).
  split; [exact Hc|]. split; [reflexivity|]. split; [exact Hsel|]. split; [exact Hopen|].
  destruct (credential_failure_disables_detection malformed_secret_world ∅ _ Hc eq_refl Hsel Hopen)
    as (s' & Hrun & _ & _ & Hb & _ & Hr & _).
  exists s'. repeat split; assumption.
Defined.

(** * Further properties of the renderer *)

Lemma render_run (r : Response) (s : State) :
  render r s = (Ok tt, push s (render_events r)).
Proof.
  unfold render_events.
  destruct (String.eqb_spec (error_message r) "") as [He|He].
  - rewrite render_ok by exact He. unfold str_bool. rewrite He. simpl negb. cbv iota.
    destruct (localized_object_annotations r); reflexivity.
  - unfold render, str_bool. apply String.eqb_neq in He. now rewrite He.
Qed.

Lemma remote_calls_app (t1 t2 : list event) :
  remote_calls (t1 ++ t2) = remote_calls t1 ++ remote_calls t2.
Proof. apply omap_app. Qed.

Lemma buttons_app (t1 t2 : list event) :
  buttons (t1 ++ t2) = buttons t1 ++ buttons t2.
Proof. apply omap_app. Qed.

Lemma entries_display_only (objs : list LocalizedObject) :
  saved_images (flat_map entry_events objs) = [] /\
  remote_calls (flat_map entry_events objs) = [] /\
  buttons (flat_map entry_events objs) = [] /\
  length (flat_map entry_events objs) = (2 * length objs)%nat.
Proof.
  induction objs as [|o objs (IH1 & IH2 & IH3 & IH4)]; simpl; [auto|].
  repeat split; auto. rewrite IH4. lia.
Qed.

Lemma render_events_display_only (r : Response) :
  saved_images (render_events r) = [] /\
  remote_calls (render_events r) = [] /\
  buttons (render_events r) = [].
Proof.
  unfold render_events.
  destruct (str_bool (error_message r)); [auto|].
  destruct (entries_display_only (localized_object_annotations r)) as (H1 & H2 & H3 & _).
  rewrite saved_images_app, remote_calls_app, buttons_app.
  destruct (list_bool (localized_object_annotations r)).
  - rewrite H1, H2, H3. auto.
  - auto.
Qed.

(** X1: the renderer never raises, whatever the response holds.  It only
    appends to the page: the session state is kept, no button is drawn,
    nothing is encoded or sent.  It shows one element for an error, three
    when there is no entry, and two more than twice the number of entries
    otherwise. *)
Theorem render_total (r : Response) (s : State) :
  exists es,
    render r s = (Ok tt, {| session_state := session_state s; trace := trace s ++ es |}) /\
    saved_images es = [] /\ remote_calls es = [] /\ buttons es = [] /\
    length es =
      (if str_bool (error_message r) then 1
       else match localized_object_annotations r with
            | [] => 3
            | objs => 2 + 2 * length objs
            end)%nat.
Proof.
  exists (render_events r).
  split; [apply render_run|].
  destruct (render_events_display_only r) as (H1 & H2 & H3).
  repeat split; auto.
  unfold render_events. destruct (str_bool (error_message r)); [reflexivity|].
  destruct (localized_object_annotations r) as [|o objs] eqn:Hobjs; [reflexivity|].
  cbn [list_bool]. rewrite length_app.
  destruct (entries_display_only (o :: objs)) as (_ & _ & _ & Hlen).
  rewrite Hlen. reflexivity.
Qed.

Lemma entry_events_lookup (objs : list LocalizedObject) (k : nat) (obj : LocalizedObject) :
  objs !! k = Some obj ->
  flat_map entry_events objs !! (2 * k)%nat = Some (Write (score_line obj)) /\
  flat_map entry_events objs !! (2 * k + 1)%nat = Some (Caption (caption_text obj)).
Proof.
  revert k. induction objs as [|o objs IH]; intros k Hk; [discriminate|].
  destruct k as [|k].
  - injection Hk as ->. split; reflexivity.
  - simpl in Hk. destruct (IH k Hk) as [H1 H2].
    replace (2 * S k)%nat with (S (S (2 * k))) by lia.
    replace (S (S (2 * k)) + 1)%nat with (S (S (2 * k + 1))) by lia.
    split; assumption.
Qed.

(** X2: entries are shown in the order of the response: in a response
    without error, the line of the entry at index [k] is the element at
    offset [2 + 2k] of what the renderer appends, and its caption is the
    next element. *)
Theorem render_entry_positions (r : Response) (s : State) (k : nat) (obj : LocalizedObject) :
  error_message r = ""%string ->
  localized_object_annotations r !! k = Some obj ->
  trace (snd (render r s)) !! (length (trace s) + 2 + 2 * k)%nat =
    Some (Write (score_line obj)) /\
  trace (snd (render r s)) !! (length (trace s) + 2 + 2 * k + 1)%nat =
    Some (Caption (caption_text obj)).
Proof.
  intros He Hk. rewrite render_ok by exact He. cbn [snd trace push].
  destruct (localized_object_annotations r) as [|o objs] eqn:Hobjs; [discriminate|].
  destruct (entry_events_lookup (o :: objs) k obj Hk) as [H1 H2].
  split.
  - rewrite lookup_app_r by lia.
    replace (length (trace s) + 2 + 2 * k - length (trace s))%nat with (2 + 2 * k)%nat by lia.
    rewrite lookup_app_r by (simpl; lia). simpl length.
    replace (2 + 2 * k - 2)%nat with (2 * k)%nat by lia. exact H1.
  - rewrite lookup_app_r by lia.
    replace (length (trace s) + 2 + 2 * k + 1 - length (trace s))%nat
      with (2 + (2 * k + 1))%nat by lia.
    rewrite lookup_app_r by (simpl; lia). simpl length.
    replace (2 + (2 * k + 1) - 2)%nat with (2 * k + 1)%nat by lia. exact H2.
Qed.

Lemma render_entry_positions_witness :
  error_message mixed_response = ""%string /\
  localized_object_annotations mixed_response !! 1%nat = Some short_cat /\
  trace (snd (render mixed_response (start ∅))) !! 4%nat =
    Some (Write "- **Cat** (Score: 87.34%)") /\
  trace (snd (render mixed_response (start ∅))) !! 5%nat =
    Some (Caption "Bounding box data unavailable.").
Proof.
  split; [reflexivity|]. split; [reflexivity|].
  destruct (render_entry_positions mixed_response (start ∅) 1 short_cat eq_refl eq_refl)
    as [H1 H2].
  simpl length in H1, H2. simpl Nat.add in H1, H2. rewrite H1, H2.
  split; vm_compute; reflexivity.
Defined.

Lemma vertex_field_ok (v : pyval) (i : nat) (a t : string) :
  vertex_field v i a = Ok t ->
  exists items vi x,
    v = PyList items /\ items !! i = Some vi /\
    getattr vi a = Ok (PyFloat x) /\ t = format_2f x.
Proof.
  unfold vertex_field. intros H.
  destruct v as [| |str|items|attrs]; simpl in H; try discriminate.
  - destruct (String.get i str); simpl in H; discriminate.
  - destruct (items !! i) as [vi|] eqn:Hi; simpl in H; [|discriminate].
    destruct (getattr vi a) as [c|e] eqn:Hc; simpl in H; [|discriminate].
    destruct c; simpl in H; try discriminate.
    injection H as <-. eauto 10.
Qed.

Lemma box_text_ok_inv (poly : pyval) (text : string) :
  box_text poly = Ok text ->
  exists items i0 i2 x0 y0 x2 y2,
    getattr poly "normalized_vertices" = Ok (PyList items) /\
    items !! 0%nat = Some i0 /\ items !! 2%nat = Some i2 /\
    getattr i0 "x" = Ok (PyFloat x0) /\ getattr i0 "y" = Ok (PyFloat y0) /\
    getattr i2 "x" = Ok (PyFloat x2) /\ getattr i2 "y" = Ok (PyFloat y2) /\
    text = corner_caption (x0, y0) (x2, y2).
Proof.
  unfold box_text. intros H.
  destruct (getattr poly "normalized_vertices") as [v|e] eqn:Hv; [|discriminate].
  simpl in H.
  destruct (vertex_field v 0 "x") as [tx0|e] eqn:Hx0; [|discriminate]. simpl in H.
  destruct (vertex_field v 0 "y") as [ty0|e] eqn:Hy0; [|discriminate]. simpl in H.
  destruct (vertex_field v 2 "x") as [tx2|e] eqn:Hx2; [|discriminate]. simpl in H.
  destruct (vertex_field v 2 "y") as [ty2|e] eqn:Hy2; [|discriminate]. simpl in H.
  injection H as <-.
  apply vertex_field_ok in Hx0 as (items & i0 & x0 & -> & Hi0 & Hgx0 & ->).
  apply vertex_field_ok in Hy0 as (items' & i0' & y0 & [= <-] & Hi0' & Hgy0 & ->).
  apply vertex_field_ok in Hx2 as (items' & i2 & x2 & [= <-] & Hi2 & Hgx2 & ->).
  apply vertex_field_ok in Hy2 as (items' & i2' & y2 & [= <-] & Hi2' & Hgy2 & ->).
  rewrite Hi0 in Hi0'. injection Hi0' as <-.
  rewrite Hi2 in Hi2'. injection Hi2' as <-.
  exists items, i0, i2, x0, y0, x2, y2. repeat split; auto.
Qed.

(** X3: the vertex caption is produced exactly when the polygon gives a
    list [normalized_vertices] whose elements at index 0 and 2 both have
    float attributes [x] and [y]; the caption then shows these four
    numbers.  Nothing else of the polygon is looked at. *)
Theorem box_text_ok_iff (poly : pyval) (text : string) :
  box_text poly = Ok text <->
  exists items i0 i2 x0 y0 x2 y2,
    getattr poly "normalized_vertices" = Ok (PyList items) /\
    items !! 0%nat = Some i0 /\ items !! 2%nat = Some i2 /\
    getattr i0 "x" = Ok (PyFloat x0) /\ getattr i0 "y" = Ok (PyFloat y0) /\
    getattr i2 "x" = Ok (PyFloat x2) /\ getattr i2 "y" = Ok (PyFloat y2) /\
    text = corner_caption (x0, y0) (x2, y2).
Proof.
  split; [apply box_text_ok_inv|].
  intros (items & i0 & i2 & x0 & y0 & x2 & y2 & Hv & Hi0 & Hi2 & Hx0 & Hy0 & Hx2 & Hy2 & ->).
  unfold box_text, vertex_field. rewrite Hv. simpl.
  rewrite Hi0, Hi2. simpl. rewrite Hx0, Hy0. simpl. rewrite Hx2, Hy2. reflexivity.
Qed.

Lemma box_text_not_fallback (poly : pyval) (text : string) :
  box_text poly = Ok text -> text <> fallback_caption.
Proof.
  intros H. apply box_text_ok_inv in H
    as (items & i0 & i2 & x0 & y0 & x2 & y2 & _ & _ & _ & _ & _ & _ & _ & ->).
  unfold corner_caption, fallback_caption. simpl. discriminate.
Qed.

(** X4: the fallback caption is shown exactly when reading or formatting
    the polygon raised; a caption that was produced normally is never
    mistaken for it. *)
Theorem caption_fallback_iff (obj : LocalizedObject) :
  caption_text obj = fallback_caption <->
  exists e, box_text (bounding_poly obj) = Raise e.
Proof.
  unfold caption_text.
  destruct (box_text (bounding_poly obj)) as [text|e] eqn:Hb.
  - split.
    + intros Ht. now apply box_text_not_fallback in Hb.
    + intros [e He]. discriminate.
  - split; eauto.
Qed.

(** * Further properties of the number formatting *)

Lemma round_half_even_close (n d : Z) :
  0 < d -> 2 * Z.abs (n - round_half_even n d * d) <= d.
Proof.
  intros Hd. unfold round_half_even. cbv zeta.
  pose proof (Z.div_mod n d ltac:(lia)) as Hdm.
  pose proof (Z.mod_pos_bound n d Hd) as Hr.
  set (q := n / d) in *. set (r := n mod d) in *. clearbody q r.
  destruct (Z.compare_spec (2 * r) d) as [Hc|Hc|Hc].
  - destruct (Z.even q); nia.
  - nia.
  - nia.
Qed.

Lemma round_half_even_tie (n d : Z) :
  2 * (n mod d) = d -> Z.even (round_half_even n d) = true.
Proof.
  intros Ht. unfold round_half_even. cbv zeta. rewrite Ht, Z.compare_refl.
  destruct (Z.even (n / d)) eqn:He; [exact He|].
  rewrite Z.even_add, He. reflexivity.
Qed.

(** The hundredths that are printed are the float's exact value rounded
    to the nearest integer, ties to even. *)
Lemma scaled_hundredths_nearest (m : positive) (e : Z) :
  0 <= scaled_hundredths m e /\
  (0 <= e -> scaled_hundredths m e = Z.pos m * 100 * 2 ^ e) /\
  (e < 0 ->
   2 * Z.abs (Z.pos m * 100 - scaled_hundredths m e * 2 ^ (- e)) <= 2 ^ (- e)) /\
  (e < 0 -> 2 * ((Z.pos m * 100) mod 2 ^ (- e)) = 2 ^ (- e) ->
   Z.even (scaled_hundredths m e) = true).
Proof.
  unfold scaled_hundredths.
  destruct (Z.leb_spec 0 e) as [He|He].
  - split; [|split; [reflexivity | split; lia]].
    assert (0 < 2 ^ e) by (apply Z.pow_pos_nonneg; lia). lia.
  - assert (Hd : 0 < 2 ^ (- e)) by (apply Z.pow_pos_nonneg; lia).
    split; [|split; [lia | split]].
    + pose proof (round_half_even_close (Z.pos m * 100) _ Hd) as Hc.
      destruct (Z.lt_ge_cases (round_half_even (Z.pos m * 100) (2 ^ (- e))) 0) as [Hn|Hn];
        [|exact Hn].
      exfalso. nia.
    + intros _. now apply round_half_even_close.
    + intros _. apply round_half_even_tie.
Qed.

Lemma is_digit_not_point (c : ascii) : is_digit c = true -> Ascii.eqb c "." = false.
Proof.
  intros Hc. apply Ascii.eqb_neq. intros ->. discriminate.
Qed.

Lemma is_digit_not_minus (c : ascii) : is_digit c = true -> Ascii.eqb c "-" = false.
Proof.
  intros Hc. apply Ascii.eqb_neq. intros ->. discriminate.
Qed.

Lemma split_at_point_digits (u rest : string) :
  all_digits u = true ->
  split_at_point (u ++ String "." rest) = Some (u, rest).
Proof.
  induction u as [|c u IH]; intros Hu; [reflexivity|].
  unfold all_digits in Hu. simpl in Hu. apply andb_prop in Hu as [Hc Hu].
  simpl. rewrite (is_digit_not_point c Hc). now rewrite (IH Hu).
Qed.

Lemma number_of_digits_dec (a : Z) : 0 <= a -> number_of_digits (dec a) = Some a.
Proof.
  intros Ha. unfold number_of_digits, dec.
  pose proof (DecimalN.Unsigned.of_to (Z.to_N a)) as Hof.
  destruct (N.to_uint (Z.to_N a)) as [|u|u|u|u|u|u|u|u|u|u] eqn:Hu.
  - simpl. f_equal. simpl in Hof. lia.
  - rewrite NilZero.usu by discriminate. rewrite Hof. f_equal. lia.
  - rewrite NilZero.usu by discriminate. rewrite Hof. f_equal. lia.
  - rewrite NilZero.usu by discriminate. rewrite Hof. f_equal. lia.
  - rewrite NilZero.usu by discriminate. rewrite Hof. f_equal. lia.
  - rewrite NilZero.usu by discriminate. rewrite Hof. f_equal. lia.
  - rewrite NilZero.usu by discriminate. rewrite Hof. f_equal. lia.
  - rewrite NilZero.usu by discriminate. rewrite Hof. f_equal. lia.
  - rewrite NilZero.usu by discriminate. rewrite Hof. f_equal. lia.
  - rewrite NilZero.usu by discriminate. rewrite Hof. f_equal. lia.
  - rewrite NilZero.usu by discriminate. rewrite Hof. f_equal. lia.
Qed.

Lemma number_of_two_digits (d1 d2 : Z) :
  0 <= d1 < 10 -> 0 <= d2 < 10 ->
  number_of_digits (String (digit d1) (String (digit d2) "")) = Some (10 * d1 + d2).
Proof.
  intros H1 H2.
  assert (Hall : forallb (fun a => forallb (fun b =>
             match number_of_digits (String (digit (Z.of_nat a)) (String (digit (Z.of_nat b)) "")) with
             | Some v => v =? 10 * Z.of_nat a + Z.of_nat b
             | None => false
             end) (seq 0 10)) (seq 0 10) = true) by (vm_compute; reflexivity).
  rewrite forallb_forall in Hall.
  specialize (Hall (Z.to_nat d1)). rewrite in_seq in Hall.
  specialize (Hall ltac:(lia)). rewrite forallb_forall in Hall.
  specialize (Hall (Z.to_nat d2)). rewrite in_seq in Hall.
  specialize (Hall ltac:(lia)). rewrite !Z2Nat.id in Hall by lia.
  destruct (number_of_digits _) as [v|]; [|discriminate].
  apply Z.eqb_eq in Hall. now subst.
Qed.

Lemma hundredths_of_fixed2 (sg : bool) (n : Z) :
  0 <= n ->
  hundredths_of_text (sign_str sg ++ fixed2 n) = Some (if sg then - n else n).
Proof.
  intros Hn. unfold hundredths_of_text.
  destruct (dec_digits (n / 100)) as [Hne Hall].
  assert (Hstrip : strip_minus (sign_str sg ++ fixed2 n) = (sg, fixed2 n)).
  { destruct sg; [reflexivity|]. simpl. unfold fixed2.
    destruct (dec (n / 100)) as [|c rest] eqn:Hd; [congruence|].
    unfold all_digits in Hall. simpl in Hall. apply andb_prop in Hall as [Hc _].
    simpl. now rewrite (is_digit_not_minus c Hc). }
  rewrite Hstrip. unfold fixed2.
  change ("." ++ String (digit (n / 10 mod 10)) (String (digit (n mod 10)) ""))%string
    with (String "." (String (digit (n / 10 mod 10)) (String (digit (n mod 10)) ""))).
  rewrite (split_at_point_digits _ _ Hall). simpl String.length. simpl Nat.eqb. cbv iota.
  rewrite number_of_digits_dec by (apply Z.div_pos; lia).
  rewrite number_of_two_digits by (apply Z.mod_pos_bound; lia).
  assert (Hsum : 100 * (n / 100) + (10 * (n / 10 mod 10) + n mod 10) = n).
  { Z.div_mod_to_equations. lia. }
  rewrite Hsum. reflexivity.
Qed.



(** * Further properties of the bitmap operations *)

Lemma DIV255_mono (a b : Z) : a <= b -> DIV255 a <= DIV255 b.
Proof.
  intros Hab. unfold DIV255. rewrite !Z.shiftr_div_pow2 by lia.
  apply Z.div_le_mono; [lia|].
  assert ((a + 128) / 2 ^ 8 <= (b + 128) / 2 ^ 8) by (apply Z.div_le_mono; lia).
  lia.
Qed.

Lemma BLEND8_over_white (a v : Z) :
  0 <= a <= 255 -> 0 <= v <= 255 -> v <= BLEND8 a 255 v <= 255.
Proof.
  intros Ha Hv. split; [|apply BLEND8_range; lia].
  rewrite <- (DIV255_scaled v Hv) at 1. unfold BLEND8.
  apply DIV255_mono. nia.
Qed.

(** X6: pasting over white never darkens: for a well-formed RGBA pixel,
    each of the three resulting channels lies between the pixel's own
    channel and 255. *)
Theorem over_white_lightens (p : list Z) :
  wf_pixel 4 p ->
  length (over_white p) = 3%nat /\
  Forall2 (fun v v' => v <= v' <= 255) (take 3 p) (over_white p).
Proof.
  intros [Hlen Hall].
  destruct p as [|r [|g [|b [|a [|x p]]]]]; simpl in Hlen; try lia.
  inversion Hall as [|? ? Hr Hall1]; subst.
  inversion Hall1 as [|? ? Hg Hall2]; subst.
  inversion Hall2 as [|? ? Hb Hall3]; subst.
  inversion Hall3 as [|? ? Haa _]; subst.
  split; [reflexivity|].
  unfold over_white, white. simpl.
  repeat constructor; apply BLEND8_over_white; lia.
Qed.

Lemma over_white_lightens_witness :
  wf_pixel 4 [10; 20; 30; 128] /\
  length (over_white [10; 20; 30; 128]) = 3%nat /\
  over_white [10; 20; 30; 128] = [132; 137; 142].
Proof.
  assert (H : wf_pixel 4 [10; 20; 30; 128]).
  { split; [reflexivity|]. repeat constructor; lia. }
  split; [exact H|].
  split; [exact (proj1 (over_white_lightens [10; 20; 30; 128] H))|].
  vm_compute. reflexivity.
Defined.

(** X7: the conversion of lines 87-93 never raises and keeps the size, and
    its result is never in mode "RGBA": the JPEG encoder is handed
    exactly one bitmap per detection run, and never an RGBA one. *)
Theorem final_img_never_RGBA (b : Image) (w : World) (client : option Client) (s : State) :
  exists out,
    final_img b = Ok out /\
    size out = size b /\
    mode out <> "RGBA"%string /\
    saved_images (trace (snd (run_detection w client b s))) = saved_images (trace s) ++ [out].
Proof.
  destruct (String.eqb_spec (mode b) "RGBA") as [Hm|Hm].
  - eexists. split; [apply final_img_RGBA, Hm|].
    split; [reflexivity|]. split; [simpl; discriminate|].
    apply run_detection_saves, final_img_RGBA, Hm.
  - exists b. split; [now apply final_img_other|].
    split; [reflexivity|]. split; [exact Hm|].
    apply run_detection_saves. now apply final_img_other.
Qed.

(** * Further properties of the credential block *)

Lemma load_credentials_success (w : World) (c : Client) (s : State) :
  service_account_client w = Ok c ->
  load_credentials w s =
    (Ok (Some c),
     {| session_state := <["client_ready"%string := true]> (session_state s);
        trace := trace s |}).
Proof.
  intros Hc. unfold load_credentials, try_except_Exception, bind, lift.
  now rewrite Hc.
Qed.

Lemma load_credentials_uncaught (w : World) (e : exn) (s : State) :
  service_account_client w = Raise e ->
  is_Exception e = false ->
  load_credentials w s = (Raise e, s).
Proof.
  intros Hc He. unfold load_credentials, try_except_Exception, bind, lift.
  now rewrite Hc, He.
Qed.

(** X8: whenever the credential block ends normally, the flag it leaves in
    the session state says whether there is a client: "client_ready" is
    true exactly when [client] is not [None].  No other key of the session
    state is touched, and the page gets the two error elements exactly in
    the failure case. *)
Theorem load_credentials_flag (w : World) (s s' : State) (client : option Client) :
  load_credentials w s = (Ok client, s') ->
  session_state s' = <["client_ready"%string := bool_decide (is_Some client)]> (session_state s) /\
  (forall c, client = Some c -> service_account_client w = Ok c /\ trace s' = trace s) /\
  (client = None ->
   exists e, service_account_client w = Raise e /\ is_Exception e = true /\
             trace s' = trace s ++ [Error credentials_error; ExceptionBox e]).
Proof.
  intros Hrun.
  destruct (service_account_client w) as [c|e] eqn:Hc.
  - rewrite (load_credentials_success w c s Hc) in Hrun.
    injection Hrun as <- <-. simpl.
    split; [reflexivity|]. split; [|discriminate].
    intros c' [= <-]. auto.
  - destruct (is_Exception e) eqn:He.
    + rewrite (load_credentials_failure w e Hc He s) in Hrun.
      injection Hrun as <- <-. simpl.
      split; [reflexivity|]. split; [discriminate|]. intros _. eauto.
    + rewrite (load_credentials_uncaught w e s Hc He) in Hrun. discriminate.
Qed.

Lemma load_credentials_flag_witness :
  load_credentials (detect_world true (Ok []) (Ok cat_response)) (start ∅) =
    (Ok (Some sample_client), page_state ∅ true []) /\
  session_state (page_state ∅ true []) =
    <["client_ready"%string := bool_decide (is_Some (Some sample_client))]> (session_state (start ∅)).
Proof.
  assert (H : load_credentials (detect_world true (Ok []) (Ok cat_response)) (start ∅) =
              (Ok (Some sample_client), page_state ∅ true [])) by reflexivity.
  split; [exact H|].
  exact (proj1 (load_credentials_flag _ _ _ _ H)).
Defined.

(** * Further properties of the detection run *)

(** The detection run with a client, case by case. *)
Lemma run_detection_Some (w : World) (c : Client) (b final : Image) (s : State) :
  final_img b = Ok final ->
  run_detection w (Some c) b s =
    match save w final "JPEG" with
    | Raise e => (Raise e, push s [running_info; SaveCall final "JPEG"])
    | Ok content =>
        match object_localization w c content with
        | Raise e =>
            (Raise e,
             push s [running_info; SaveCall final "JPEG"; ObjectLocalizationCall content])
        | Ok response =>
            (Ok tt,
             push s ([running_info; SaveCall final "JPEG"; ObjectLocalizationCall content]
                     ++ render_events response))
        end
    end.
Proof.
  intros Hf. unfold run_detection, bind, emit, lift. rewrite Hf.
  destruct (save w final "JPEG") as [content|e]; cbv beta iota.
  - unfold call_object_localization, bind, emit, lift.
    destruct (object_localization w c content) as [response|e]; cbv beta iota.
    + rewrite render_run. now rewrite !push_push.
    + now rewrite !push_push.
  - now rewrite !push_push.
Qed.

Lemma final_img_total (b : Image) : exists final, final_img b = Ok final.
Proof.
  destruct (String.eqb_spec (mode b) "RGBA") as [Hm|Hm].
  - eexists. apply final_img_RGBA, Hm.
  - exists b. now apply final_img_other.
Qed.

(** X9: when the encoder fails, the exception leaves the detection run
    uncaught: the service is not called and nothing is rendered; the page
    only got the "running" notice. *)
Theorem run_detection_save_fails (w : World) (client : option Client)
    (b final : Image) (e : exn) (s : State) :
  final_img b = Ok final ->
  save w final "JPEG" = Raise e ->
  run_detection w client b s = (Raise e, push s [running_info; SaveCall final "JPEG"]) /\
  remote_calls (trace (snd (run_detection w client b s))) = remote_calls (trace s).
Proof.
  intros Hf Hs.
  assert (Hrun : run_detection w client b s =
                 (Raise e, push s [running_info; SaveCall final "JPEG"])).
  { unfold run_detection, bind, emit, lift. rewrite Hf. cbv beta iota. rewrite Hs.
    now rewrite !push_push. }
  split; [exact Hrun|]. rewrite Hrun. cbn [snd trace push].
  rewrite remote_calls_app. simpl. now rewrite app_nil_r.
Qed.

Lemma run_detection_save_fails_witness :
  final_img rgba_sample = Ok rgba_sample_final /\
  save (detect_world true (Raise (Exc OSError "encoder error")) (Ok cat_response))
       rgba_sample_final "JPEG" = Raise (Exc OSError "encoder error") /\
  run_detection (detect_world true (Raise (Exc OSError "encoder error")) (Ok cat_response))
                (Some sample_client) rgba_sample (start ∅) =
    (Raise (Exc OSError "encoder error"),
     push (start ∅) [running_info; SaveCall rgba_sample_final "JPEG"]).
Proof.
  assert (Hf : final_img rgba_sample = Ok rgba_sample_final)
    by (rewrite final_img_RGBA by reflexivity; vm_compute; reflexivity).
  split; [exact Hf|]. split; [reflexivity|].
  exact (proj1 (run_detection_save_fails
                  (detect_world true (Raise (Exc OSError "encoder error")) (Ok cat_response))
                  (Some sample_client) rgba_sample rgba_sample_final
                  (Exc OSError "encoder error") (start ∅) Hf eq_refl)).
Defined.

(** X10: when the call to the service raises, the exception leaves the
    detection run uncaught after the one call: no banner, no entry and no
    message is rendered. *)
Theorem run_detection_service_fails (w : World) (c : Client)
    (b final : Image) (content : bytes) (e : exn) (s : State) :
  final_img b = Ok final ->
  save w final "JPEG" = Ok content ->
  object_localization w c content = Raise e ->
  run_detection w (Some c) b s =
    (Raise e,
     push s [running_info; SaveCall final "JPEG"; ObjectLocalizationCall content]).
Proof.
  intros Hf Hs Hr. rewrite (run_detection_Some w c b final s Hf). now rewrite Hs, Hr.
Qed.

Lemma run_detection_service_fails_witness :
  final_img rgba_sample = Ok rgba_sample_final /\
  save (detect_world true (Ok []) (Raise (Exc GoogleAPIError "unavailable")))
       rgba_sample_final "JPEG" = Ok [] /\
  object_localization (detect_world true (Ok []) (Raise (Exc GoogleAPIError "unavailable")))
       sample_client [] = Raise (Exc GoogleAPIError "unavailable") /\
  run_detection (detect_world true (Ok []) (Raise (Exc GoogleAPIError "unavailable")))
                (Some sample_client) rgba_sample (start ∅) =
    (Raise (Exc GoogleAPIError "unavailable"),
     push (start ∅) [running_info; SaveCall rgba_sample_final "JPEG";
                     ObjectLocalizationCall []]).
Proof.
  assert (Hf : final_img rgba_sample = Ok rgba_sample_final)
    by (rewrite final_img_RGBA by reflexivity; vm_compute; reflexivity).
  split; [exact Hf|]. split; [reflexivity|]. split; [reflexivity|].
  exact (run_detection_service_fails
           (detect_world true (Ok []) (Raise (Exc GoogleAPIError "unavailable")))
           sample_client rgba_sample rgba_sample_final []
           (Exc GoogleAPIError "unavailable") (start ∅) Hf eq_refl eq_refl).
Defined.

(** X11: a detection run that goes through is the composition of the three
    steps: the converted crop is encoded, the bytes the encoder returned
    are what is sent, in one call, and the answer of that call is what is
    rendered, after the "running" notice. *)
Theorem run_detection_pipeline (w : World) (c : Client) (b final : Image)
    (content : bytes) (response : Response) (s : State) :
  final_img b = Ok final ->
  save w final "JPEG" = Ok content ->
  object_localization w c content = Ok response ->
  exists shown,
    render response (push s [running_info; SaveCall final "JPEG";
                             ObjectLocalizationCall content]) =
      (Ok tt, push s ([running_info; SaveCall final "JPEG";
                       ObjectLocalizationCall content] ++ shown)) /\
    run_detection w (Some c) b s =
      (Ok tt, push s ([running_info; SaveCall final "JPEG";
                       ObjectLocalizationCall content] ++ shown)) /\
    saved_images (trace (snd (run_detection w (Some c) b s))) = saved_images (trace s) ++ [final] /\
    remote_calls (trace (snd (run_detection w (Some c) b s))) = remote_calls (trace s) ++ [content].
Proof.
  intros Hf Hs Hr. exists (render_events response).
  split; [rewrite render_run; now rewrite push_push|].
  assert (Hrun : run_detection w (Some c) b s =
                 (Ok tt, push s ([running_info; SaveCall final "JPEG";
                                  ObjectLocalizationCall content] ++ render_events response))).
  { rewrite (run_detection_Some w c b final s Hf). now rewrite Hs, Hr. }
  split; [exact Hrun|].
  split; [now apply run_detection_saves|].
  rewrite Hrun. cbn [snd trace push].
  destruct (render_events_display_only response) as (_ & Hrc & _).
  rewrite !remote_calls_app, Hrc. reflexivity.
Qed.

Lemma run_detection_pipeline_witness :
  final_img rgba_sample = Ok rgba_sample_final /\
  save (detect_world true (Ok []) (Ok cat_response)) rgba_sample_final "JPEG" = Ok [] /\
  object_localization (detect_world true (Ok []) (Ok cat_response)) sample_client [] =
    Ok cat_response /\
  run_detection (detect_world true (Ok []) (Ok cat_response))
                (Some sample_client) rgba_sample (start ∅) =
    (Ok tt,
     push (start ∅)
       [running_info; SaveCall rgba_sample_final "JPEG"; ObjectLocalizationCall [];
        Success "✅ Object Localization Complete";
        Markdown "### 🔍 Detected Objects:";
        Write "- **Cat** (Score: 87.34%)";
        Caption "Box: (0.10, 0.20) to (0.90, 0.80)"]).
Proof.
  assert (Hf : final_img rgba_sample = Ok rgba_sample_final)
    by (rewrite final_img_RGBA by reflexivity; vm_compute; reflexivity).
  split; [exact Hf|]. split; [reflexivity|]. split; [reflexivity|].
  destruct (run_detection_pipeline (detect_world true (Ok []) (Ok cat_response))
              sample_client rgba_sample rgba_sample_final [] cat_response (start ∅)
              Hf eq_refl eq_refl) as (shown & Hrender & Hrun & _).
  rewrite Hrun, <- Hrender. vm_compute. reflexivity.
Defined.

(** * Further properties of the whole run *)

(** The run after the credential block, case by case. *)
Lemma app_after_credentials (w : World) (s0 s1 : State) (client : option Client) :
  load_credentials w s0 = (Ok client, s1) ->
  app w s0 =
    match dict_getitem aspect_dict (selectbox w "Aspect Ratio" aspect_options) with
    | Raise e =>
        (Raise e,
         push s1 [SetPageConfig "Vision API Demo" "🧠" "wide";
                  Title "Vision API Demo - Object Detection Tool";
                  SidebarHeader "⚙️ Options";
                  Selectbox "Aspect Ratio" aspect_options])
    | Ok aspect_ratio =>
        match file_uploader w with
        | None => (Ok tt, push s1 (page_chrome ++ [upload_hint]))
        | Some f =>
            match Image_open w f with
            | Raise e =>
                if is_Exception e then
                  (Ok tt, push s1 (page_chrome ++
                                   [Error ("Error reading image file: " ++ exn_str e)]))
                else (Raise e, push s1 page_chrome)
            | Ok image =>
                if default false (session_state s1 !! "client_ready"%string) then
                  if button w detect_label then
                    run_detection w client (st_cropper w image aspect_ratio)
                      (push s1 (page_chrome ++ crop_columns_with_button w image aspect_ratio))
                  else
                    (Ok tt,
                     push s1 (page_chrome ++ crop_columns_with_button w image aspect_ratio))
                else
                  (Ok tt,
                   push s1 (page_chrome ++ crop_columns_without_client w image aspect_ratio))
            end
        end
    end.
Proof.
  intros Hload. unfold app, bind. rewrite Hload.
  unfold emit, lift. cbv beta iota. rewrite ?push_push.
  destruct (dict_getitem aspect_dict (selectbox w "Aspect Ratio" aspect_options))
    as [aspect_ratio|e]; [|reflexivity].
  cbv beta iota. rewrite ?push_push.
  destruct (file_uploader w) as [f|]; [|now rewrite ?push_push].
  unfold try_except_Exception, bind, lift.
  destruct (Image_open w f) as [image|e].
  - unfold ret, crop_and_detect, bind, emit, session_get. cbv beta iota. rewrite ?push_push.
    cbn [push session_state].
    destruct (default false (session_state s1 !! "client_ready"%string)).
    + destruct (button w detect_label); cbv beta; rewrite ?push_push; reflexivity.
    + cbv beta. rewrite ?push_push. reflexivity.
  - destruct (is_Exception e); [|reflexivity].
    unfold bind, emit, ret. now rewrite ?push_push.
Qed.

(** X12: an exception of the credential block that is not an [Exception]
    (an interrupt, a script-control exception) is not caught: the run
    ends with it before anything is shown, and the session state is left
    as it was. *)
Theorem app_credentials_uncaught (w : World) (e : exn) (s : State) :
  service_account_client w = Raise e ->
  is_Exception e = false ->
  app w s = (Raise e, s).
Proof.
  intros Hc He. unfold app, bind.
  now rewrite (load_credentials_uncaught w e s Hc He).
Qed.

Lemma app_credentials_uncaught_witness :
  service_account_client
    {| secrets := fun _ => Ok "{}"%string;
       json_loads := fun _ => Raise (Exc KeyboardInterrupt "");
       from_service_account_info := fun v => Ok (ImageAnnotatorClient v);
       selectbox := fun _ _ => "Free"%string;
       file_uploader := Some [];
       Image_open := fun _ => Ok rgb_sample;
       st_cropper := fun im _ => im;
       button := fun _ => true;
       save := fun _ _ => Ok [];
       object_localization := fun _ _ => Ok empty_response |} =
    Raise (Exc KeyboardInterrupt "") /\
  is_Exception (Exc KeyboardInterrupt "") = false /\
  app
    {| secrets := fun _ => Ok "{}"%string;
       json_loads := fun _ => Raise (Exc KeyboardInterrupt "");
       from_service_account_info := fun v => Ok (ImageAnnotatorClient v);
       selectbox := fun _ _ => "Free"%string;
       file_uploader := Some [];
       Image_open := fun _ => Ok rgb_sample;
       st_cropper := fun im _ => im;
       button := fun _ => true;
       save := fun _ _ => Ok [];
       object_localization := fun _ _ => Ok empty_response |}
    (start ∅) = (Raise (Exc KeyboardInterrupt ""), start ∅).
Proof.
  split; [reflexivity|]. split; [reflexivity|].
  apply app_credentials_uncaught; reflexivity.
Defined.

(** X13: without an upload the run ends normally after the page chrome
    with the upload hint: no cropper, no preview, no button and no warning
    is shown, whether or not the credentials were loaded. *)
Theorem app_no_upload (w : World) (s0 s1 : State) (client : option Client) :
  load_credentials w s0 = (Ok client, s1) ->
  selectbox w "Aspect Ratio" aspect_options ∈ aspect_options ->
  file_uploader w = None ->
  app w s0 =
    (Ok tt,
     push s1 [SetPageConfig "Vision API Demo" "🧠" "wide";
              Title "Vision API Demo - Object Detection Tool";
              SidebarHeader "⚙️ Options";
              Selectbox "Aspect Ratio" ["Free"; "1:1"; "16:9"; "4:3"]%string;
              FileUploader "📤 Upload an image" ["jpg"; "jpeg"; "png"]%string;
              Info "👆 Upload an image to begin."]).
Proof.
  intros Hload Hsel Hf. rewrite (app_after_credentials w s0 s1 client Hload).
  destruct (aspect_dict_total _ Hsel) as [a Ha]. now rewrite Ha, Hf.
Qed.

Lemma app_no_upload_witness :
  load_credentials quiet_world (start ∅) = (Ok (Some sample_client), page_state ∅ true []) /\
  selectbox quiet_world "Aspect Ratio" aspect_options ∈ aspect_options /\
  file_uploader quiet_world = None /\
  app quiet_world (start ∅) = (Ok tt, page_state ∅ true (page_chrome ++ [upload_hint])).
Proof.
  assert (Hload : load_credentials quiet_world (start ∅) =
                  (Ok (Some sample_client), page_state ∅ true [])) by reflexivity.
  assert (Hsel : selectbox quiet_world "Aspect Ratio" aspect_options ∈ aspect_options)
    by (apply list_elem_of_In; simpl; left; reflexivity).
  split; [exact Hload|]. split; [exact Hsel|]. split; [reflexivity|].
  rewrite (app_no_upload quiet_world _ _ _ Hload Hsel eq_refl). reflexivity.
Defined.

(** X14: an upload that cannot be decoded is reported inline and ends the
    run normally, without cropper, preview, button or warning, when the
    decoder's exception is an [Exception]; any other exception leaves the
    run uncaught after the page chrome. *)
Theorem app_decode_error (w : World) (s0 s1 : State) (client : option Client)
    (f : bytes) (e : exn) :
  load_credentials w s0 = (Ok client, s1) ->
  selectbox w "Aspect Ratio" aspect_options ∈ aspect_options ->
  file_uploader w = Some f ->
  Image_open w f = Raise e ->
  app w s0 =
    if is_Exception e then
      (Ok tt, push s1 (page_chrome ++ [Error ("Error reading image file: " ++ exn_str e)]))
    else (Raise e, push s1 page_chrome).
Proof.
  intros Hload Hsel Hf Ho. rewrite (app_after_credentials w s0 s1 client Hload).
  destruct (aspect_dict_total _ Hsel) as [a Ha]. now rewrite Ha, Hf, Ho.
Qed.

Lemma app_decode_error_witness :
  load_credentials (broken_upload_world (Exc UnidentifiedImageError "cannot identify image file"))
                   (start ∅) = (Ok (Some sample_client), page_state ∅ true []) /\
  selectbox (broken_upload_world (Exc UnidentifiedImageError "cannot identify image file"))
            "Aspect Ratio" aspect_options ∈ aspect_options /\
  app (broken_upload_world (Exc UnidentifiedImageError "cannot identify image file")) (start ∅) =
    (Ok tt,
     page_state ∅ true
       (page_chrome ++ [Error "Error reading image file: cannot identify image file"])).
Proof.
  assert (Hload : load_credentials
                    (broken_upload_world (Exc UnidentifiedImageError "cannot identify image file"))
                    (start ∅) = (Ok (Some sample_client), page_state ∅ true []))
    by reflexivity.
  assert (Hsel : selectbox
                   (broken_upload_world (Exc UnidentifiedImageError "cannot identify image file"))
                   "Aspect Ratio" aspect_options ∈ aspect_options)
    by (apply list_elem_of_In; simpl; right; right; left; reflexivity).
  split; [exact Hload|]. split; [exact Hsel|].
  rewrite (app_decode_error
             (broken_upload_world (Exc UnidentifiedImageError "cannot identify image file"))
             _ _ _ [] _ Hload Hsel eq_refl eq_refl).
  reflexivity.
Defined.

(** X16: with a client and a decoded upload, as long as the button is not
    pressed the run ends normally with the two columns and the button:
    nothing is encoded, the service is not called and no warning is
    shown.  The cropper gets the decoded image and the ratio of the chosen
    option; the preview shows what the cropper returned. *)
Theorem app_ready_idle (w : World) (session : gmap string bool) (c : Client)
    (f : bytes) (image : Image) (aspect_ratio : option (Z * Z)) :
  service_account_client w = Ok c ->
  dict_getitem aspect_dict (selectbox w "Aspect Ratio" aspect_options) = Ok aspect_ratio ->
  file_uploader w = Some f ->
  Image_open w f = Ok image ->
  button w "🚀 Run Detection (Object Localization)" = false ->
  app w (start session) =
    (Ok tt,
     {| session_state := <["client_ready"%string := true]> session;
        trace :=
          [SetPageConfig "Vision API Demo" "🧠" "wide";
           Title "Vision API Demo - Object Detection Tool";
           SidebarHeader "⚙️ Options";
           Selectbox "Aspect Ratio" ["Free"; "1:1"; "16:9"; "4:3"]%string;
           FileUploader "📤 Upload an image" ["jpg"; "jpeg"; "png"]%string;
           Columns [2; 1];
           Subheader "✂️ Select Area on Image";
           Cropper image aspect_ratio;
           Text "";
           Subheader "✅ Cropped Result & Action";
           ShowImage (st_cropper w image aspect_ratio) "Selected Region";
           Markdown "<br>";
           Button "🚀 Run Detection (Object Localization)"] |}).
Proof.
  intros Hc Ha Hf Ho Hb.
  rewrite (app_after_credentials w _ _ _ (load_credentials_success w c (start session) Hc)).
  rewrite Ha, Hf, Ho. cbn [session_state start].
  rewrite lookup_insert_eq. cbn [default]. unfold detect_label. rewrite Hb.
  reflexivity.
Qed.

Lemma app_ready_idle_witness :
  service_account_client (detect_world false (Ok []) (Ok cat_response)) = Ok sample_client /\
  dict_getitem aspect_dict
    (selectbox (detect_world false (Ok []) (Ok cat_response)) "Aspect Ratio" aspect_options) =
    Ok (Some (16, 9)) /\
  buttons (trace (snd (app (detect_world false (Ok []) (Ok cat_response)) (start ∅)))) =
    ["🚀 Run Detection (Object Localization)"%string] /\
  remote_calls (trace (snd (app (detect_world false (Ok []) (Ok cat_response)) (start ∅)))) = [].
Proof.
  assert (Hc : service_account_client (detect_world false (Ok []) (Ok cat_response)) =
               Ok sample_client) by reflexivity.
  assert (Ha : dict_getitem aspect_dict
                 (selectbox (detect_world false (Ok []) (Ok cat_response))
                            "Aspect Ratio" aspect_options) = Ok (Some (16, 9)))
    by (vm_compute; reflexivity).
  split; [exact Hc|]. split; [exact Ha|].
  rewrite (app_ready_idle (detect_world false (Ok []) (Ok cat_response)) ∅ sample_client
             [] rgba_sample (Some (16, 9)) Hc Ha eq_refl eq_refl eq_refl).
  split; reflexivity.
Defined.

(** The outcome of a detection run with a client does not depend on the
    state it starts from; it makes at most one call, with the encoder's
    bytes. *)
Lemma run_detection_shape (w : World) (c : Client) (b : Image) :
  exists r es,
    (forall s, run_detection w (Some c) b s = (r, push s es)) /\
    (forall content, content ∈ remote_calls es ->
       remote_calls es = [content] /\
       exists final, final_img b = Ok final /\ save w final "JPEG" = Ok content).
Proof.
  destruct (final_img_total b) as [final Hf].
  destruct (save w final "JPEG") as [content|e] eqn:Hs.
  - destruct (object_localization w c content) as [response|e] eqn:Hr.
    + exists (Ok tt), ([running_info; SaveCall final "JPEG"; ObjectLocalizationCall content]
                       ++ render_events response).
      split.
      * intros s. rewrite (run_detection_Some w c b final s Hf). now rewrite Hs, Hr.
      * destruct (render_events_display_only response) as (_ & Hrc & _).
        rewrite remote_calls_app, Hrc. simpl.
        intros content' Hin. apply list_elem_of_singleton in Hin as ->. eauto.
    + exists (Raise e), [running_info; SaveCall final "JPEG"; ObjectLocalizationCall content].
      split.
      * intros s. rewrite (run_detection_Some w c b final s Hf). now rewrite Hs, Hr.
      * simpl. intros content' Hin. apply list_elem_of_singleton in Hin as ->. eauto.
  - exists (Raise e), [running_info; SaveCall final "JPEG"].
    split.
    + intros s. rewrite (run_detection_Some w c b final s Hf). now rewrite Hs.
    + simpl. intros content' Hin. now apply elem_of_nil in Hin.
Qed.

(** The outcome of a whole run: the result and the page do not depend on
    the session state the run starts with, only "client_ready" is
    written, and a call to the service has the full chain behind it. *)
Lemma app_shape (w : World) :
  exists r es,
    (forall session, exists ss',
       app w (start session) = (r, {| session_state := ss'; trace := es |}) /\
       forall k, k <> "client_ready"%string -> ss' !! k = session !! k) /\
    (forall content, content ∈ remote_calls es ->
       remote_calls es = [content] /\
       exists c f image aspect_ratio final,
         service_account_client w = Ok c /\
         dict_getitem aspect_dict (selectbox w "Aspect Ratio" aspect_options) = Ok aspect_ratio /\
         file_uploader w = Some f /\
         Image_open w f = Ok image /\
         button w detect_label = true /\
         final_img (st_cropper w image aspect_ratio) = Ok final /\
         save w final "JPEG" = Ok content).
Proof.
  destruct (service_account_client w) as [c|e] eqn:Hc.
  - (* the client is ready *)
    pose proof (fun session => app_after_credentials w _ _ _
                  (load_credentials_success w c (start session) Hc)) as Happ.
    destruct (dict_getitem aspect_dict (selectbox w "Aspect Ratio" aspect_options))
      as [a|e] eqn:Ha.
    + destruct (file_uploader w) as [f|] eqn:Hf.
      * destruct (Image_open w f) as [image|e] eqn:Ho.
        -- destruct (button w detect_label) eqn:Hb.
           ++ destruct (run_detection_shape w c (st_cropper w image a))
                as (r & es & Hrun & Hcalls).
              exists r, ((page_chrome ++ crop_columns_with_button w image a) ++ es).
              split.
              ** intros session. eexists. split.
                 { rewrite Happ. cbn [session_state start].
                   rewrite lookup_insert_eq. cbn [default]. rewrite Hrun.
                   rewrite push_push. reflexivity. }
                 intros k Hk. cbn [session_state]. now apply lookup_insert_ne.
              ** rewrite remote_calls_app.
                 change (remote_calls (page_chrome ++ crop_columns_with_button w image a))
                   with (@nil bytes).
                 intros content Hin. destruct (Hcalls content Hin) as [Hone (final & Hfin & Hs)].
                 split; [exact Hone|]. exists c, f, image, a, final. auto 10.
           ++ exists (Ok tt), (page_chrome ++ crop_columns_with_button w image a).
              split.
              ** intros session. eexists. split.
                 { rewrite Happ. cbn [session_state start].
                   rewrite lookup_insert_eq. reflexivity. }
                 intros k Hk. cbn [session_state]. now apply lookup_insert_ne.
              ** intros content Hin. now apply elem_of_nil in Hin.
        -- destruct (is_Exception e) eqn:He.
           ++ exists (Ok tt),
                (page_chrome ++ [Error ("Error reading image file: " ++ exn_str e)]).
              split.
              ** intros session. eexists. split; [rewrite Happ; reflexivity|].
                 intros k Hk. cbn [session_state]. now apply lookup_insert_ne.
              ** intros content Hin. now apply elem_of_nil in Hin.
           ++ exists (Raise e), page_chrome.
              split.
              ** intros session. eexists. split; [rewrite Happ; reflexivity|].
                 intros k Hk. cbn [session_state]. now apply lookup_insert_ne.
              ** intros content Hin. now apply elem_of_nil in Hin.
      * exists (Ok tt), (page_chrome ++ [upload_hint]).
        split.
        -- intros session. eexists. split; [rewrite Happ; reflexivity|].
           intros k Hk. cbn [session_state]. now apply lookup_insert_ne.
        -- intros content Hin. now apply elem_of_nil in Hin.
    + exists (Raise e), (take 4 page_chrome).
      split.
      * intros session. eexists. split; [rewrite Happ; reflexivity|].
        intros k Hk. cbn [session_state]. now apply lookup_insert_ne.
      * intros content Hin. now apply elem_of_nil in Hin.
  - destruct (is_Exception e) eqn:He.
    + (* the failure is caught: the gate is closed *)
      pose proof (fun session => app_after_credentials w _ _ _
                    (load_credentials_failure w e Hc He (start session))) as Happ.
      destruct (dict_getitem aspect_dict (selectbox w "Aspect Ratio" aspect_options))
        as [a|e'] eqn:Ha.
      * destruct (file_uploader w) as [f|] eqn:Hf.
        -- destruct (Image_open w f) as [image|e'] eqn:Ho.
           ++ exists (Ok tt),
                ([Error credentials_error; ExceptionBox e] ++ page_chrome ++
                 crop_columns_without_client w image a).
              split.
              ** intros session. eexists. split.
                 { rewrite Happ. cbn [session_state].
                   rewrite lookup_insert_eq. reflexivity. }
                 intros k Hk. cbn [session_state]. now apply lookup_insert_ne.
              ** intros content Hin. now apply elem_of_nil in Hin.
           ++ destruct (is_Exception e') eqn:He'.
              ** exists (Ok tt),
                   ([Error credentials_error; ExceptionBox e] ++ page_chrome ++
                    [Error ("Error reading image file: " ++ exn_str e')]).
                 split.
                 { intros session. eexists. split; [rewrite Happ; reflexivity|].
                   intros k Hk. cbn [session_state]. now apply lookup_insert_ne. }
                 intros content Hin. now apply elem_of_nil in Hin.
              ** exists (Raise e'), ([Error credentials_error; ExceptionBox e] ++ page_chrome).
                 split.
                 { intros session. eexists. split; [rewrite Happ; reflexivity|].
                   intros k Hk. cbn [session_state]. now apply lookup_insert_ne. }
                 intros content Hin. now apply elem_of_nil in Hin.
        -- exists (Ok tt),
             ([Error credentials_error; ExceptionBox e] ++ page_chrome ++ [upload_hint]).
           split.
           ++ intros session. eexists. split; [rewrite Happ; reflexivity|].
              intros k Hk. cbn [session_state]. now apply lookup_insert_ne.
           ++ intros content Hin. now apply elem_of_nil in Hin.
      * exists (Raise e'), ([Error credentials_error; ExceptionBox e] ++ take 4 page_chrome).
        split.
        -- intros session. eexists. split; [rewrite Happ; reflexivity|].
           intros k Hk. cbn [session_state]. now apply lookup_insert_ne.
        -- intros content Hin. now apply elem_of_nil in Hin.
    + (* the failure is not caught *)
      exists (Raise e), [].
      split.
      * intros session. exists session. split; [|reflexivity].
        unfold app, bind. now rewrite (load_credentials_uncaught w e _ Hc He).
      * intros content Hin. now apply elem_of_nil in Hin.
Qed.

(** X17: a call to the service has the whole chain behind it.  If a run
    called the service with some bytes, then the credentials were loaded
    in this run, an upload was decoded, the button was pressed, and the
    bytes are what the encoder returned for the converted crop; and that
    call is the only one of the run. *)
Theorem remote_call_provenance (w : World) (session : gmap string bool) (content : bytes) :
  content ∈ remote_calls (trace (snd (app w (start session)))) ->
  remote_calls (trace (snd (app w (start session)))) = [content] /\
  exists c f image aspect_ratio final,
    service_account_client w = Ok c /\
    dict_getitem aspect_dict (selectbox w "Aspect Ratio" aspect_options) = Ok aspect_ratio /\
    file_uploader w = Some f /\
    Image_open w f = Ok image /\
    button w "🚀 Run Detection (Object Localization)" = true /\
    final_img (st_cropper w image aspect_ratio) = Ok final /\
    save w final "JPEG" = Ok content.
Proof.
  destruct (app_shape w) as (r & es & Hrun & Hcalls).
  destruct (Hrun session) as (ss' & Happ & _). rewrite Happ. cbn [snd trace].
  apply Hcalls.
Qed.

Lemma remote_call_provenance_witness :
  [] ∈ remote_calls (trace (snd (app (detect_world true (Ok []) (Ok cat_response)) (start ∅)))) /\
  remote_calls (trace (snd (app (detect_world true (Ok []) (Ok cat_response)) (start ∅)))) = [[]].
Proof.
  assert (Hin : [] ∈ remote_calls
                  (trace (snd (app (detect_world true (Ok []) (Ok cat_response)) (start ∅))))).
  { assert (Hcalls : remote_calls
                       (trace (snd (app (detect_world true (Ok []) (Ok cat_response)) (start ∅))))
                     = [[]]) by (vm_compute; reflexivity).
    rewrite Hcalls. apply list_elem_of_singleton. reflexivity. }
  split; [exact Hin|].
  exact (proj1 (remote_call_provenance _ _ _ Hin)).
Defined.

(** X18: the service is called at most once per run, and not at all when
    the button is not pressed or when the credential block failed. *)
Theorem remote_calls_restrained (w : World) (session : gmap string bool) :
  (length (remote_calls (trace (snd (app w (start session))))) <= 1)%nat /\
  (button w "🚀 Run Detection (Object Localization)" = false ->
   remote_calls (trace (snd (app w (start session)))) = []) /\
  (forall e, service_account_client w = Raise e ->
   remote_calls (trace (snd (app w (start session)))) = []).
Proof.
  destruct (app_shape w) as (r & es & Hrun & Hcalls).
  destruct (Hrun session) as (ss' & Happ & _). rewrite Happ. cbn [snd trace].
  remember (remote_calls es) as calls eqn:Hes.
  destruct calls as [|content rest].
  - repeat split; simpl; auto.
  - destruct (Hcalls content) as [Hone (c & f & image & a & final & Hc & _ & _ & _ & Hb & _)].
    { apply list_elem_of_here. }
    injection Hone as ->.
    split; [simpl; lia|]. split.
    + unfold detect_label in Hb. congruence.
    + intros e He. congruence.
Qed.

(** X19: a run does not depend on the session state left by earlier runs:
    its result and its page are the same whatever that state holds, so a
    stale "client_ready" cannot open the gate. *)
Theorem app_ignores_stale_session (w : World) (session1 session2 : gmap string bool) :
  fst (app w (start session1)) = fst (app w (start session2)) /\
  trace (snd (app w (start session1))) = trace (snd (app w (start session2))).
Proof.
  destruct (app_shape w) as (r & es & Hrun & _).
  destruct (Hrun session1) as (ss1 & Happ1 & _).
  destruct (Hrun session2) as (ss2 & Happ2 & _).
  rewrite Happ1, Happ2. split; reflexivity.
Qed.

(** X20: the only key of the session state a run writes is "client_ready";
    every other key keeps its value. *)
Theorem app_writes_only_client_ready (w : World) (session : gmap string bool) (k : string) :
  k <> "client_ready"%string ->
  session_state (snd (app w (start session))) !! k = session !! k.
Proof.
  intros Hk.
  destruct (app_shape w) as (r & es & Hrun & _).
  destruct (Hrun session) as (ss' & Happ & Hkeys).
  rewrite Happ. cbn [snd session_state]. now apply Hkeys.
Qed.

Lemma app_writes_only_client_ready_witness :
  "theme"%string <> "client_ready"%string /\
  session_state (snd (app (detect_world true (Ok []) (Ok cat_response))
                          (start {[ "theme"%string := true ]}))) !! "theme"%string = Some true.
Proof.
  assert (Hk : "theme"%string <> "client_ready"%string) by discriminate.
  split; [exact Hk|].
  rewrite (app_writes_only_client_ready _ _ _ Hk). reflexivity.
Defined.

(** X21: end to end.  With credentials, a decoded upload and the button
    pressed, when the encoder and the service succeed the run ends
    normally and the page is, in order: the chrome, the two columns with
    the button, the "running" notice, and what the renderer shows for the
    service's answer; the flag "client_ready" is left true. *)
Theorem app_detects (w : World) (session : gmap string bool) (c : Client)
    (f : bytes) (image final : Image) (aspect_ratio : option (Z * Z))
    (content : bytes) (response : Response) :
  service_account_client w = Ok c ->
  dict_getitem aspect_dict (selectbox w "Aspect Ratio" aspect_options) = Ok aspect_ratio ->
  file_uploader w = Some f ->
  Image_open w f = Ok image ->
  button w "🚀 Run Detection (Object Localization)" = true ->
  final_img (st_cropper w image aspect_ratio) = Ok final ->
  save w final "JPEG" = Ok content ->
  object_localization w c content = Ok response ->
  exists shown,
    (forall s, render response s = (Ok tt, push s shown)) /\
    app w (start session) =
      (Ok tt,
       {| session_state := <["client_ready"%string := true]> session;
          trace :=
            page_chrome ++ crop_columns_with_button w image aspect_ratio ++
            [Info "Running Object Localization on cropped image...";
             SaveCall final "JPEG";
             ObjectLocalizationCall content] ++ shown |}).
Proof.
  intros Hc Ha Hf Ho Hb Hfin Hs Hr.
  exists (render_events response). split; [intros s; apply render_run|].
  rewrite (app_after_credentials w _ _ _ (load_credentials_success w c (start session) Hc)).
  rewrite Ha, Hf, Ho. cbn [session_state start].
  rewrite lookup_insert_eq. cbn [default]. unfold detect_label. rewrite Hb.
  rewrite (run_detection_Some w c _ final _ Hfin). rewrite Hs, Hr.
  rewrite push_push. unfold push. cbn [session_state trace].
  rewrite <- !app_assoc. reflexivity.
Qed.

Lemma app_detects_witness :
  service_account_client (detect_world true (Ok []) (Ok cat_response)) = Ok sample_client /\
  dict_getitem aspect_dict
    (selectbox (detect_world true (Ok []) (Ok cat_response)) "Aspect Ratio" aspect_options) =
    Ok (Some (16, 9)) /\
  final_img rgba_sample = Ok rgba_sample_final /\
  app (detect_world true (Ok []) (Ok cat_response)) (start ∅) =
    (Ok tt,
     page_state ∅ true
       (page_chrome ++
        crop_columns_with_button (detect_world true (Ok []) (Ok cat_response))
          rgba_sample (Some (16, 9)) ++
        [running_info; SaveCall rgba_sample_final "JPEG"; ObjectLocalizationCall [];
         Success "✅ Object Localization Complete";
         Markdown "### 🔍 Detected Objects:";
         Write "- **Cat** (Score: 87.34%)";
         Caption "Box: (0.10, 0.20) to (0.90, 0.80)"])).
Proof.
  assert (Hc : service_account_client (detect_world true (Ok []) (Ok cat_response)) =
               Ok sample_client) by reflexivity.
  assert (Ha : dict_getitem aspect_dict
                 (selectbox (detect_world true (Ok []) (Ok cat_response))
                            "Aspect Ratio" aspect_options) = Ok (Some (16, 9)))
    by (vm_compute; reflexivity).
  assert (Hf : final_img rgba_sample = Ok rgba_sample_final)
    by (rewrite final_img_RGBA by reflexivity; vm_compute; reflexivity).
  split; [exact Hc|]. split; [exact Ha|]. split; [exact Hf|].
  destruct (app_detects (detect_world true (Ok []) (Ok cat_response)) ∅ sample_client
              [] rgba_sample rgba_sample_final (Some (16, 9)) [] cat_response
              Hc Ha eq_refl eq_refl eq_refl Hf eq_refl eq_refl) as (shown & Hshown & Happ).
  rewrite Happ. unfold page_state. f_equal. f_equal. f_equal. f_equal.
  pose proof (Hshown (start ∅)) as Hrender.
  assert (Hcat : render cat_response (start ∅) =
                 (Ok tt, push (start ∅)
                           [Success "✅ Object Localization Complete";
                            Markdown "### 🔍 Detected Objects:";
                            Write "- **Cat** (Score: 87.34%)";
                            Caption "Box: (0.10, 0.20) to (0.90, 0.80)"]))
    by (vm_compute; reflexivity).
  rewrite Hcat in Hrender. injection Hrender as Hrender. simpl in Hrender.
  rewrite <- Hrender. reflexivity.
Defined.
